(** * IPython.kernel.clientconnector: a shallow embedding

    The module finds the FURL (capability descriptor) of a running
    controller, connects to it through one shared foolscap [Tub], retries
    with a growing delay while the controller is still starting, wraps the
    remote reference in a client object, and manages the life cycle of a
    cluster through the [ipcluster] launcher.

    Twisted deferreds are modelled by a state-and-exception monad over the
    Python object ([self]), the outside world and a ghost trace of the
    calls made to foreign code.  [yield d] and [d.addCallback f] are the
    monad's bind, [d.addErrback h] and [try/except] are its handler.
    Python floats are binary64 floats ([float], with the rounding of the
    machine); Python ints are [Z]; dicts are [gmap]. *)

From Stdlib Require Import ZArith QArith Floats String Ascii DecimalString.
From stdpp Require Import gmap strings list.
From Equations Require Import Equations.

Local Open Scope string_scope.

(** ** Exceptions and results *)

Inductive exn : Type :=
| FURLError (msg : string)
| ClientConnectorError (msg : string)
| ClusterStateError (msg : string)
| ClusterDirError (msg : string)
| ImportError (msg : string)
| AttributeError (msg : string)
| ForeignError (msg : string).

Inductive result (A : Type) : Type :=
| Ok (a : A)
| Raise (e : exn).

Arguments Ok {A} a.
Arguments Raise {A} e.

(** ** Python values that cross a call boundary untyped *)

Inductive PyVal : Type :=
| PyNone
| PyStr (s : string)
| PyInt (z : Z)
| PyFloat (x : float).

(** [repr] of a plain Python int, as [%r] prints it. *)
Definition repr_int (z : Z) : string :=
  NilZero.string_of_int (Z.to_int z).

(** [os.path.join(a, b)] on a POSIX system, for two components. *)
Definition os_path_join (a b : string) : string :=
  if String.prefix "/" b then b
  else if String.eqb a "" then b
  else if String.eqb (String.substring (String.length a - 1) 1 a) "/"
       then a +:+ b
       else a +:+ "/" +:+ b.

(** ** Objects of foreign modules *)

(** A remote reference and a Tub are Python objects; they are identified
    by their object identity. *)
Definition Ref := nat.
Definition Tub := nat.

(** [ClusterDir] objects, as far as this module reads them. *)
Record ClusterDirObj : Type := mkClusterDir {
  location : string;
  security_dir : string;
  log_dir : string
}.

(** [IPClusterLauncher] instances: the attributes this module sets. *)
Record Launcher : Type := mkLauncher {
  work_dir : string;
  ipcluster_n : Z;
  ipcluster_subcommand : string
}.

(** DELAY and MAX_TRIES *)
Definition DELAY : float := 0.2%float.
Definition MAX_TRIES : Z := 9.

(** ** The trace of calls that leave this module *)

Inductive Event : Type :=
| LogConnecting (attempt : Z)              (* log.msg("Connecting [%r]" % attempt) *)
| LogConnected (furl_or_file : string)     (* log.msg("Connected: %s" % furl_or_file) *)
| FindFurl (furl_or_file : string)         (* fcutil.find_furl: reads the FURL file *)
| IsValidFurlOrFile (furl_or_file : string)
| ValidateFurlOrFile (furl_file : string)
| FindClusterDir (cluster_dir : string)
| FindClusterDirByProfile (ipython_dir profile : string)
| TubGetReference (furl : string)          (* the underlying connect *)
| Sleep (delay : float)                    (* sleep_deferred(delay) *)
| CallRemote (rr : Ref) (method : string)
| ImportItem (name : string)
| LauncherStart (l : Launcher)
| LauncherObserveStop (l : Launcher)
| LauncherStop (l : Launcher).

(** ** The foreign code this module calls

    None of it is part of the module: the file system and the network are
    a [World]; every foreign function is a function of the world.  A call
    that waits (a connect, a remote call, a sleep, the launcher) gives the
    world back as it is when the deferred fires.  [sleep_deferred] is taken
    to fire for every delay. *)

Class External : Type := {
  World : Type;
  (* the class objects [import_item] can return *)
  PyClass : Type;
  (* IPython.kernel.fcutil *)
  find_furl : string -> World -> result string;
  is_valid_furl_or_file : string -> World -> bool;
  validate_furl_or_file : string -> World -> result unit;
  (* IPython.kernel.clusterdir.ClusterDir *)
  find_cluster_dir : string -> World -> result ClusterDirObj;
  find_cluster_dir_by_profile : string -> string -> World -> result ClusterDirObj;
  (* IPython.utils.path *)
  get_ipython_dir : World -> string;
  (* foolscap: Tub.getReference and RemoteReference.callRemote *)
  tub_getReference : string -> World -> result Ref * World;
  rr_callRemote : Ref -> string -> World -> result string * World;
  (* IPython.kernel.twistedutil.sleep_deferred: the world [delay] later *)
  elapse : float -> World -> World;
  (* IPython.utils.importstring *)
  import_item : string -> result PyClass;
  (* os.getcwd and IPython.kernel.launcher.IPClusterLauncher *)
  os_getcwd : World -> string;
  launcher_start : Launcher -> World -> result PyVal * World;
  launcher_observe_stop : Launcher -> World -> result PyVal * World;
  launcher_stop : Launcher -> World -> result PyVal * World;
  (* IPython.kernel.twistedutil.gatherBoth, applied to fired deferreds *)
  gatherBoth : list (result PyVal) -> result PyVal
}.

(** ** The monad *)

Section Monad.
Context `{External}.

(** The running system: the object a method is called on, the world and
    the trace so far (oldest event first). *)
Record Sys (Obj : Type) : Type := mkSys {
  self : Obj;
  world : World;
  trace : list Event
}.

Definition M (Obj A : Type) : Type := Sys Obj -> result A * Sys Obj.
End Monad.

Arguments mkSys {_ Obj} self world trace.
Arguments self {_ Obj} s.
Arguments world {_ Obj} s.
Arguments trace {_ Obj} s.

Section MonadOps.
Context `{External} {Obj : Type}.

Definition ret {A} (a : A) : M Obj A := fun st => (Ok a, st).

Definition raise {A} (e : exn) : M Obj A := fun st => (Raise e, st).

Definition bind {A B} (m : M Obj A) (k : A -> M Obj B) : M Obj B :=
  fun st => match m st with
            | (Ok a, st') => k a st'
            | (Raise e, st') => (Raise e, st')
            end.

(** [try: m  except: h]  and  [d.addErrback(h)] *)
Definition catch {A} (m : M Obj A) (h : exn -> M Obj A) : M Obj A :=
  fun st => match m st with
            | (Ok a, st') => (Ok a, st')
            | (Raise e, st') => h e st'
            end.

(** [try: m  except: h  else: k] *)
Definition try_except_else {A B} (m : M Obj A) (h : exn -> M Obj B)
           (k : A -> M Obj B) : M Obj B :=
  fun st => match m st with
            | (Ok a, st') => k a st'
            | (Raise e, st') => h e st'
            end.

Definition emit (e : Event) : M Obj unit :=
  fun st => (Ok tt, mkSys (self st) (world st) (trace st ++ [e])).

Definition get_self : M Obj Obj := fun st => (Ok (self st), st).

Definition set_self (o : Obj) : M Obj unit :=
  fun st => (Ok tt, mkSys o (world st) (trace st)).

(** A foreign call that only reads the world. *)
Definition ask {A} (f : World -> A) : M Obj A :=
  fun st => (Ok (f (world st)), st).

Definition ask_result {A} (f : World -> result A) : M Obj A :=
  fun st => (f (world st), st).

(** A foreign call that takes time or acts on the world. *)
Definition foreign {A} (f : World -> result A * World) : M Obj A :=
  fun st => let '(r, w) := f (world st) in
            (r, mkSys (self st) w (trace st)).

Definition lift {A} (r : result A) : M Obj A := fun st => (r, st).
End MonadOps.

Notation "x <- m ;; k" := (bind m (fun x => k))
  (at level 100, m at next level, right associativity).
Notation "m ;;; k" := (bind m (fun _ => k))
  (at level 100, right associativity).

(** ** AsyncClientConnector *)

Record Connector : Type := mkConnector {
  _remote_refs : gmap string Ref;   (* self._remote_refs = {} *)
  tub : Tub;                        (* self.tub = Tub() *)
  furl : option string              (* self.furl, set by _try_to_connect *)
}.

(** [self._remote_refs[k] = v] and [self.furl = f] *)
Definition set_remote_ref (k : string) (v : Ref) (c : Connector) : Connector :=
  mkConnector (<[k := v]> (_remote_refs c)) (tub c) (furl c).

Definition set_furl (f : string) (c : Connector) : Connector :=
  mkConnector (_remote_refs c) (tub c) (Some f).

(** [AsyncClientConnector.__init__], for the Tub object [t]. *)
Definition new_connector (t : Tub) : Connector :=
  mkConnector ∅ t None.

Definition max_tries_exceeded (max_tries : Z) : string :=
  "Could not connect to controller, max_tries (" +:+ repr_int max_tries +:+
  ") exceeded. This usually means that i) the controller was not started, " +:+
  "or ii) a firewall was blocking the client from connecting " +:+
  "to the controller.".

Definition could_not_connect (furl_file : string) : string :=
  "Could not connect to the controller " +:+
  "using the FURL file. This usually means that i) the controller " +:+
  "was not started or ii) a firewall was blocking the client from " +:+
  "connecting to the controller: " +:+ furl_file.

Section AsyncClientConnector.
Context `{External}.

(** A client object: an instance of the class [import_item] returned,
    built from the remote reference, with its [tub] attribute.  What the
    class does in its own [__init__] is foreign code and is not run. *)
Record Client : Type := mkClient {
  client_interface : PyClass;
  client_rr : Ref;
  client_tub : option Tub
}.

(** [client.tub = t] *)
Definition set_client_tub (t : Tub) (c : Client) : Client :=
  mkClient (client_interface c) (client_rr c) (Some t).

Definition _find_furl (profile cluster_dir furl_or_file furl_file_name
                       ipython_dir : option string) : M Connector string :=
  (* Try by furl_or_file *)
  valid <- match furl_or_file with
           | Some f => emit (IsValidFurlOrFile f) ;;;
                       ask (is_valid_furl_or_file f)
           | None => ret false
           end ;;
  match furl_or_file, valid with
  | Some f, true => ret f
  | _, _ =>
    match furl_file_name with
    | None =>
        raise (FURLError
                 "A furl_file_name must be provided if furl_or_file is not")
    | Some furl_file_name =>
      match cluster_dir with
      | Some cluster_dir =>
          (* Try by cluster_dir *)
          emit (FindClusterDir cluster_dir) ;;;
          cluster_dir_obj <- ask_result (find_cluster_dir cluster_dir) ;;
          let sdir := security_dir cluster_dir_obj in
          let furl_file := os_path_join sdir furl_file_name in
          emit (ValidateFurlOrFile furl_file) ;;;
          ask_result (validate_furl_or_file furl_file) ;;;
          ret furl_file
      | None =>
          (* Try by profile *)
          ipython_dir <- match ipython_dir with
                         | None => ask get_ipython_dir
                         | Some d => ret d
                         end ;;
          match profile with
          | Some profile =>
              emit (FindClusterDirByProfile ipython_dir profile) ;;;
              cluster_dir_obj <-
                ask_result (find_cluster_dir_by_profile ipython_dir profile) ;;
              let sdir := security_dir cluster_dir_obj in
              let furl_file := os_path_join sdir furl_file_name in
              emit (ValidateFurlOrFile furl_file) ;;;
              ask_result (validate_furl_or_file furl_file) ;;;
              ret furl_file
          | None => raise (FURLError "Could not find a valid FURL file.")
          end
      end
    end
  end.

(** Cache a remote reference by its furl. *)
Definition _save_ref (ref : Ref) (furl : string) : M Connector Ref :=
  s <- get_self ;;
  set_self (set_remote_ref furl ref s) ;;;
  ret ref.

Definition get_reference (furl_or_file : string) : M Connector Ref :=
  let furl := furl_or_file in
  s <- get_self ;;
  match _remote_refs s !! furl with
  | Some ref => ret ref                        (* defer.succeed(...) *)
  | None =>
      ref <- (emit (TubGetReference furl) ;;;
              foreign (tub_getReference furl)) ;;
      _save_ref ref furl
  end.

(** The body of the [try:] block of [_try_to_connect]. *)
Definition connect_once (furl_or_file : string) : M Connector Ref :=
  furl <- (emit (FindFurl furl_or_file) ;;;
           ask_result (find_furl furl_or_file)) ;;
  s <- get_self ;;
  set_self (set_furl furl s) ;;;                (* self.furl = find_furl(...) *)
  rr <- get_reference furl ;;
  emit (LogConnected furl_or_file) ;;;
  ret rr.

Definition sleep_deferred (delay : float) : M Connector unit :=
  emit (Sleep delay) ;;;
  foreign (fun w => (Ok tt, elapse delay w)).

(** Try to connect to the controller with retry logic. *)
Equations? _try_to_connect (furl_or_file : string) (delay : float)
           (max_tries attempt : Z) : M Connector Ref
  by wf (Z.to_nat (max_tries - attempt)%Z) lt :=
  _try_to_connect furl_or_file delay max_tries attempt
    with Z_lt_dec attempt max_tries := {
    | left _ =>
        emit (LogConnecting attempt) ;;;
        try_except_else (connect_once furl_or_file)
          (fun e =>
             if Z.eq_dec attempt (max_tries - 1)%Z then
               raise e
             else
               sleep_deferred delay ;;;
               rr <- _try_to_connect furl_or_file (1.5 * delay)%float
                                     max_tries (attempt + 1)%Z ;;
               ret rr)
          (fun rr => ret rr)
    | right _ =>
        raise (ClientConnectorError (max_tries_exceeded max_tries)) }.
Proof. lia. Qed.

Definition _handle_error (f : exn) (furl_file : string) : M Connector Client :=
  raise (ClientConnectorError (could_not_connect furl_file)).

Definition adapt (rr : Ref) (client_interface : PyClass) : M Connector Client :=
  let client := mkClient client_interface rr None in   (* client_interface(rr) *)
  s <- get_self ;;
  let client := set_client_tub (tub s) client in       (* client.tub = self.tub *)
  ret client.

Definition _wrap_remote_reference (rr : Ref) : M Connector Client :=
  name <- (emit (CallRemote rr "get_client_name") ;;;
           foreign (rr_callRemote rr "get_client_name")) ;;
  client_interface <- (emit (ImportItem name) ;;; lift (import_item name)) ;;
  adapt rr client_interface.

Definition get_client (profile cluster_dir furl_or_file furl_file_name
                       ipython_dir : option string) (delay : float) (max_tries : Z)
  : M Connector Client :=
  try_except_else
    (_find_furl profile cluster_dir furl_or_file furl_file_name ipython_dir)
    (fun e => match e with
              | FURLError _ => raise e     (* defer.fail(failure.Failure()) *)
              | _ => raise e               (* not caught *)
              end)
    (fun furl_file =>
       catch (rr <- _try_to_connect furl_file delay max_tries 0 ;;
              _wrap_remote_reference rr)
             (fun f => _handle_error f furl_file)).

Definition get_task_client (profile cluster_dir furl_or_file ipython_dir
                            : option string) (delay : float) (max_tries : Z)
  : M Connector Client :=
  get_client profile cluster_dir furl_or_file (Some "ipcontroller-tc.furl")
             ipython_dir delay max_tries.

Definition get_multiengine_client (profile cluster_dir furl_or_file ipython_dir
                                   : option string) (delay : float) (max_tries : Z)
  : M Connector Client :=
  get_client profile cluster_dir furl_or_file (Some "ipcontroller-mec.furl")
             ipython_dir delay max_tries.

End AsyncClientConnector.

(** ** ClientConnector: the blocking wrapper

    [blockingCallFromThread(f, a, b, ...)] runs [f(a, b, ...)] in the reactor
    thread and hands back its outcome, so what matters here is how the
    positional arguments meet the formal parameters of [f]. *)

(** Formal parameters with their default values. *)
Definition params_AsyncClientConnector_get_client : list (string * PyVal) :=
  [("profile", PyStr "default"); ("cluster_dir", PyNone);
   ("furl_or_file", PyNone); ("furl_file_name", PyNone);
   ("ipython_dir", PyNone);
   ("delay", PyFloat DELAY); ("max_tries", PyInt MAX_TRIES)].

Definition params_AsyncClientConnector_get_task_client : list (string * PyVal) :=
  [("profile", PyStr "default"); ("cluster_dir", PyNone);
   ("furl_or_file", PyNone); ("ipython_dir", PyNone);
   ("delay", PyFloat DELAY); ("max_tries", PyInt MAX_TRIES)].

(** Python's binding of a positional argument list: the i-th argument goes
    to the i-th parameter, parameters left over take their defaults, and
    an argument left over is a TypeError ([None]). *)
Fixpoint bind_positional (params : list (string * PyVal)) (args : list PyVal)
  : option (list (string * PyVal)) :=
  match params, args with
  | [], [] => Some []
  | [], _ :: _ => None
  | (x, d) :: ps, [] => option_map (cons (x, d)) (bind_positional ps [])
  | (x, _) :: ps, a :: args' =>
      option_map (cons (x, a)) (bind_positional ps args')
  end.

(** The argument list of the call in [ClientConnector.get_client]:
    [blockingCallFromThread(self.async_cc.get_client, profile, cluster_dir,
     furl_or_file, ipython_dir, delay, max_tries)] *)
Definition ClientConnector_get_client_call
  (profile cluster_dir furl_or_file ipython_dir delay max_tries : PyVal)
  : option (list (string * PyVal)) :=
  bind_positional params_AsyncClientConnector_get_client
    [profile; cluster_dir; furl_or_file; ipython_dir; delay; max_tries].

(** The argument list of the call in [ClientConnector.get_task_client]. *)
Definition ClientConnector_get_task_client_call
  (profile cluster_dir furl_or_file ipython_dir delay max_tries : PyVal)
  : option (list (string * PyVal)) :=
  bind_positional params_AsyncClientConnector_get_task_client
    [profile; cluster_dir; furl_or_file; ipython_dir; delay; max_tries].

(** Lookup of a bound parameter by name. *)
Fixpoint bound (x : string) (b : list (string * PyVal)) : option PyVal :=
  match b with
  | [] => None
  | (y, v) :: b' => if String.eqb x y then Some v else bound x b'
  end.

(** ** AsyncCluster *)

Record AsyncCluster : Type := mkCluster {
  cluster_dir_obj : option ClusterDirObj;   (* set by _setup_cluster_dir *)
  state : string;                           (* 'before', 'running', 'after' *)
  launcher : option Launcher;
  client_connector : option Connector;
  auto_stop : bool
}.

(** [self.state = v] and [self.launcher = l] *)
Definition set_state (v : string) (c : AsyncCluster) : AsyncCluster :=
  mkCluster (cluster_dir_obj c) v (launcher c) (client_connector c)
            (auto_stop c).

Definition set_launcher (l : Launcher) (c : AsyncCluster) : AsyncCluster :=
  mkCluster (cluster_dir_obj c) (state c) (Some l) (client_connector c)
            (auto_stop c).

(** [__init__], once [_setup_cluster_dir] has found the directory [dir]. *)
Definition new_cluster (dir : option ClusterDirObj) (auto_stop : bool)
  : AsyncCluster :=
  mkCluster dir "before" None None auto_stop.

Section AsyncCluster.
Context `{External}.

(** The outcome a deferred has fired with, as [gatherBoth] sees it. *)
Definition fired {A} (m : M AsyncCluster A) : M AsyncCluster (result A) :=
  fun st => let '(r, st') := m st in (Ok r, st').

Definition _handle_start (r : PyVal) : M AsyncCluster PyVal :=
  s <- get_self ;;
  set_self (set_state "running" s) ;;;
  ret PyNone.

Definition _handle_stop (r : PyVal) : M AsyncCluster PyVal :=
  s <- get_self ;;
  set_self (set_state "after" s) ;;;
  ret PyNone.

(** Start the IPython cluster with n engines. *)
Definition AsyncCluster_start (n : Z) : M AsyncCluster PyVal :=
  s <- get_self ;;
  if negb (String.eqb (state s) "running") then
    cwd <- ask os_getcwd ;;
    (* IPClusterLauncher(os.getcwd()), then ipcluster_n and
       ipcluster_subcommand are assigned *)
    let l := mkLauncher cwd n "start" in
    set_self (set_launcher l s) ;;;
    r <- (emit (LauncherStart l) ;;; foreign (launcher_start l)) ;;
    _handle_start r
  else
    raise (ClusterStateError "Cluster is already running").

(** Stop the IPython cluster if it is running. *)
Definition AsyncCluster_stop : M AsyncCluster PyVal :=
  s <- get_self ;;
  if String.eqb (state s) "running" then
    match launcher s with
    | None =>
        raise (AttributeError
                 "'NoneType' object has no attribute 'observe_stop'")
    | Some l =>
        d1 <- fired (r <- (emit (LauncherObserveStop l) ;;;
                           foreign (launcher_observe_stop l)) ;;
                     _handle_stop r) ;;
        d2 <- fired (emit (LauncherStop l) ;;; foreign (launcher_stop l)) ;;
        lift (gatherBoth [d1; d2])
    end
  else
    raise (ClusterStateError "Cluster not running").

End AsyncCluster.

(** ** Reading traces and messages *)

(** The system after one more event, and after [sleep_deferred delay]. *)
Definition logged `{External} {Obj} (e : Event) (st : Sys Obj) : Sys Obj :=
  mkSys (self st) (world st) (trace st ++ [e]).

Definition slept `{External} {Obj} (delay : float) (st : Sys Obj) : Sys Obj :=
  mkSys (self st) (elapse delay (world st)) (trace st ++ [Sleep delay]).

(** The attempt numbers logged, in order. *)
Definition attempts (tr : list Event) : list Z :=
  omap (fun e => match e with LogConnecting a => Some a | _ => None end) tr.

(** The delays slept, in order. *)
Definition sleeps (tr : list Event) : list float :=
  omap (fun e => match e with Sleep d => Some d | _ => None end) tr.

(** The furls the Tub was asked to connect to, in order. *)
Definition connects (tr : list Event) : list string :=
  omap (fun e => match e with TubGetReference f => Some f | _ => None end) tr.

(** The descriptor sources read by [find_furl], in order. *)
Definition reads (tr : list Event) : list string :=
  omap (fun e => match e with FindFurl f => Some f | _ => None end) tr.

(** The cluster directory look-ups, by directory or by profile. *)
Definition lookups (tr : list Event) : list Event :=
  List.filter (fun e => match e with
                        | FindClusterDir _ | FindClusterDirByProfile _ _
                        | ValidateFurlOrFile _ => true
                        | _ => false
                        end) tr.

(** The remote calls made, in order. *)
Definition remote_calls (tr : list Event) : list (Ref * string) :=
  omap (fun e => match e with CallRemote r m => Some (r, m) | _ => None end) tr.

(** Attempts and sleeps together, in the order they happened. *)
Definition schedule (tr : list Event) : list (Z + float) :=
  omap (fun e => match e with
                 | LogConnecting a => Some (inl a)
                 | Sleep d => Some (inr d)
                 | _ => None
                 end) tr.

(** The delay after [k] failed attempts: [1.5*delay], [k] times over, as
    the machine multiplies. *)
Definition grown (k : nat) (d : float) : float :=
  Nat.iter k (fun delay => (1.5 * delay)%float) d.

(** The schedule of [n] attempts numbered from [a] with first delay [d]:
    attempt a, wait d, attempt a+1, wait 1.5*d, ..., attempt a+n-1. *)
Definition backoff (d : float) (a : Z) (n : nat) : list (Z + float) :=
  inl a ::
  flat_map (fun k => [inr (grown k d); inl (a + Z.of_nat k + 1)%Z])
           (seq 0 (n - 1)).

(** The number a finite float stands for. *)
Definition float_value (x : float) : option Q :=
  match Prim2SF x with
  | S754_zero _ => Some 0%Q
  | S754_finite s m e =>
      Some ((if s then -1 else 1) * inject_Z (Z.pos m) * 2 ^ e)%Q
  | S754_infinity _ | S754_nan => None
  end.

(** The attempts of a schedule, and its delays. *)
Definition left_of (x : Z + float) : option Z :=
  match x with inl a => Some a | inr _ => None end.

Definition right_of (x : Z + float) : option float :=
  match x with inl _ => None | inr d => Some d end.

(** Where an attempt stands with respect to its descriptor source. *)
Inductive phase : Type :=
| Idle          (* no attempt is under way, or its furl has been used *)
| Attempting    (* the attempt has been announced, nothing read yet *)
| Fresh.        (* the source has been read in this attempt *)

(** One event seen by an observer who checks that every attempt first
    reads the source [f], and that the Tub is asked to connect only with a
    furl read in the same attempt. *)
Definition reread_step (f : string) (p : phase) (e : Event) : option phase :=
  match e with
  | LogConnecting _ =>
      match p with Attempting => None | _ => Some Attempting end
  | FindFurl g =>
      match p with
      | Attempting => if String.eqb g f then Some Fresh else None
      | _ => None
      end
  | TubGetReference _ =>
      match p with Fresh => Some Idle | _ => None end
  | _ => Some p
  end.

Fixpoint reread_run (f : string) (p : phase) (tr : list Event) : option phase :=
  match tr with
  | [] => Some p
  | e :: tr' =>
      match reread_step f p e with
      | Some p' => reread_run f p' tr'
      | None => None
      end
  end.

Definition rereads (f : string) (tr : list Event) : bool :=
  match reread_run f Idle tr with
  | Some Idle | Some Fresh => true
  | _ => false
  end.

(** [st'] is [st] some time later: the cache has only grown, the Tub is
    the same, and every connect made in between was for a furl that was
    not cached in [st]. *)
Definition grows `{External} (st st' : Sys Connector) : Prop :=
  _remote_refs (self st) ⊆ _remote_refs (self st') /\
  tub (self st') = tub (self st) /\
  exists new, trace st' = (trace st ++ new)%list /\
              forall X, X ∈ connects new -> _remote_refs (self st) !! X = None.

(** What can happen to a connector between two calls. *)
Inductive later `{External} : Sys Connector -> Sys Connector -> Prop :=
| later_now st : later st st
| later_get_reference st st' X :
    later st st' -> later st (snd (get_reference X st'))
| later_get_client st st' p c f n i d m :
    later st st' -> later st (snd (get_client p c f n i d m st'))
| later_world st st' w :
    later st st' -> later st (mkSys (self st') w (trace st')).

(** [retries f m d a st d' a' st']: an activation of [_try_to_connect]
    with delay [d] at attempt [a] in [st] fails its attempts one after the
    other and so comes to the activation with delay [d'] at attempt [a']
    in [st']. *)
Inductive retries `{External} (f : string) (m : Z)
  : float -> Z -> Sys Connector -> float -> Z -> Sys Connector -> Prop :=
| retries_here d a st : retries f m d a st d a st
| retries_next d a st e st1 d' a' st' :
    (a < m)%Z -> a <> (m - 1)%Z ->
    connect_once f (logged (LogConnecting a) st) = (Raise e, st1) ->
    retries f m (1.5 * d)%float (a + 1)%Z (slept d st1) d' a' st' ->
    retries f m d a st d' a' st'.

(** The error of the [else:] branch of [_try_to_connect], which the
    design calls RetryBudgetExhausted. *)
Definition RetryBudgetExhausted (max_tries : Z) : exn :=
  ClientConnectorError (max_tries_exceeded max_tries).

(** [sub in s] for Python strings. *)
Fixpoint contains (sub s : string) : bool :=
  String.prefix sub s ||
  match s with
  | EmptyString => false
  | String _ s' => contains sub s'
  end.

(** ** A controller that is still starting

    A world for examples: the world is the number of sleeps that have
    passed; the FURL file holds a furl from tick [ready] on, the Tub
    connects to that furl from tick [listening] on, and the controller
    recommends the client class [cls]. *)

Definition booting_find_furl (ready : nat) (f : string) (w : nat)
  : result string :=
  if (ready <=? w)%nat then Ok "pb://controller@127.0.0.1:10105/mec"
  else Raise (FURLError ("Not a valid FURL or FURL file: " +:+ f)).

Definition booting_getReference (listening : nat) (f : string) (w : nat)
  : result Ref * nat :=
  if (listening <=? w)%nat then (Ok 7%nat, w)
  else (Raise (ForeignError "Connection refused"), w).

Definition booting_import_item (name : string) : result string :=
  if String.eqb name "IPython.kernel.multiengineclient.FCFullSynchronousMultiEngineClient"
  then Ok name
  else Raise (ImportError ("No module named " +:+ name)).

(** A furl, or the name of a file with the extension of FURL files. *)
Definition booting_is_valid (f : string) (w : nat) : bool :=
  String.prefix "pb://" f || contains ".furl" f.

Definition booting (ready listening : nat) (cls : string) : External := {|
  World := nat;
  PyClass := string;
  find_furl := booting_find_furl ready;
  is_valid_furl_or_file := booting_is_valid;
  validate_furl_or_file := fun _ _ => Ok tt;
  find_cluster_dir := fun d _ => Ok (mkClusterDir d (d +:+ "/security") (d +:+ "/log"));
  find_cluster_dir_by_profile := fun i p _ =>
    Ok (mkClusterDir (i +:+ "/cluster_" +:+ p)
                     (i +:+ "/cluster_" +:+ p +:+ "/security")
                     (i +:+ "/cluster_" +:+ p +:+ "/log"));
  get_ipython_dir := fun _ => "/home/user/.ipython";
  tub_getReference := booting_getReference listening;
  rr_callRemote := fun _ _ w => (Ok cls, w);
  elapse := fun _ w => S w;
  import_item := booting_import_item;
  os_getcwd := fun _ => "/home/user";
  launcher_start := fun _ w => (Ok PyNone, w);
  launcher_observe_stop := fun _ w => (Ok PyNone, w);
  launcher_stop := fun _ w => (Ok PyNone, w);
  gatherBoth := fun l => Ok PyNone
|}.

Definition mec_class : string :=
  "IPython.kernel.multiengineclient.FCFullSynchronousMultiEngineClient".

Definition mec_furl_file : string :=
  "/home/user/.ipython/cluster_default/security/ipcontroller-mec.furl".

(** The controller is up. *)
Definition started : External := booting 0 0 mec_class.

(** The FURL file is empty during the first two attempts. *)
Definition ready_at_third : External := booting 2 0 mec_class.

(** The controller was never started. *)
Definition never_started : External := booting 100 100 mec_class.

(** A connector just created, in the world [w]. *)
Definition fresh_connector (E : External) (w : @World E) : @Sys E Connector :=
  @mkSys E Connector (new_connector 1%nat) w [].

(** A cluster handle just created, in the world [w]. *)
Definition fresh_cluster (E : External) (w : @World E) : @Sys E AsyncCluster :=
  @mkSys E AsyncCluster (new_cluster None true) w [].

(** * The rest of the module *)

(** ** More foreign code *)

Class ExternalFiles `{External} : Type := {
  (* ClusterDir.create_cluster_dir_by_profile(ipython_dir, profile) *)
  create_cluster_dir_by_profile :
    string -> option string -> World -> result ClusterDirObj * World;
  (* os.listdir(path) *)
  os_listdir : string -> World -> result (list string);
  (* open(path, 'r') and f.read() *)
  read_file : string -> World -> result string;
  (* Tub() and tub.startService(): the new Tub object *)
  Tub_new : World -> Tub * World
}.

(** [s.startswith(p)] and [s.endswith(p)] *)
Definition startswith (s p : string) : bool := String.prefix p s.

Definition endswith (s p : string) : bool :=
  (String.length p <=? String.length s)%nat &&
  String.eqb (String.substring (String.length s - String.length p)
                               (String.length p) s) p.

(** [d.update(other)] on dicts: the entries of [other] win. *)
Definition dict_update (d other : gmap string string) : gmap string string :=
  other ∪ d.

(** ** AsyncCluster: construction, properties, clients and logs *)

Definition set_client_connector (cc : Connector) (c : AsyncCluster)
  : AsyncCluster :=
  mkCluster (cluster_dir_obj c) (state c) (launcher c) (Some cc) (auto_stop c).

(** The property [location]; [hasattr(self, 'cluster_dir_obj')] is the
    attribute being set. *)
Definition AsyncCluster_location (c : AsyncCluster) : string :=
  match cluster_dir_obj c with
  | Some d => location d
  | None => ""
  end.

(** The property [running]. *)
Definition AsyncCluster_running (c : AsyncCluster) : bool :=
  if String.eqb (state c) "running" then true else false.

Section AsyncClusterMore.
Context `{ExternalFiles}.

(** [_setup_cluster_dir], on the object under construction: all it has or
    gets is the attribute [cluster_dir_obj] ([None]: not set). *)
Definition _setup_cluster_dir (profile cluster_dir ipython_dir : option string)
           (auto_create : bool) : M (option ClusterDirObj) unit :=
  ipython_dir <- match ipython_dir with
                 | None => ask get_ipython_dir
                 | Some d => ret d
                 end ;;
  match cluster_dir with
  | Some cluster_dir =>
      catch (emit (FindClusterDir cluster_dir) ;;;
             o <- ask_result (find_cluster_dir cluster_dir) ;;
             set_self (Some o))
            (fun e => match e with
                      | ClusterDirError _ => ret tt      (* pass *)
                      | _ => raise e
                      end)
  | None => ret tt
  end ;;;
  match profile with
  | Some profile =>
      catch (emit (FindClusterDirByProfile ipython_dir profile) ;;;
             o <- ask_result (find_cluster_dir_by_profile ipython_dir profile) ;;
             set_self (Some o))
            (fun e => match e with
                      | ClusterDirError _ => ret tt      (* pass *)
                      | _ => raise e
                      end)
  | None => ret tt
  end ;;;
  if auto_create ||
     match profile with Some p => String.eqb p "default" | None => false end
  then
    o <- foreign (create_cluster_dir_by_profile ipython_dir profile) ;;
    set_self (Some o)
  else
    raise (ClusterDirError "Cluster dir not found.").

(** [AsyncCluster.__init__]: the new object, when it is built. *)
Definition AsyncCluster_init (profile cluster_dir ipython_dir : option string)
           (auto_create auto_stop : bool)
  : M (option ClusterDirObj) AsyncCluster :=
  _setup_cluster_dir profile cluster_dir ipython_dir auto_create ;;;
  o <- get_self ;;
  ret (mkCluster o "before" None None auto_stop).

(** A method of the connector the cluster holds, run on that object: the
    cluster sees what the method did to it. *)
Definition on_connector {A} (m : M Connector A) : M AsyncCluster A :=
  fun st =>
    match client_connector (self st) with
    | None =>
        (Raise (AttributeError "'NoneType' object has no attribute"), st)
    | Some cc =>
        let '(r, st') := m (mkSys cc (world st) (trace st)) in
        (r, mkSys (set_client_connector (self st') (self st))
                  (world st') (trace st'))
    end.

(** [if self.client_connector is None:
       self.client_connector = AsyncClientConnector()] *)
Definition ensure_connector : M AsyncCluster unit :=
  s <- get_self ;;
  match client_connector s with
  | None =>
      t <- foreign (fun w => let '(t, w') := Tub_new w in (Ok t, w')) ;;
      set_self (set_client_connector (new_connector t) s)
  | Some _ => ret tt
  end.

Definition no_cluster_dir_obj : exn :=
  AttributeError "'AsyncCluster' object has no attribute 'cluster_dir_obj'".

(** Get the multiengine client for the running cluster. *)
Definition AsyncCluster_get_multiengine_client (delay : float) (max_tries : Z)
  : M AsyncCluster Client :=
  ensure_connector ;;;
  s <- get_self ;;
  match cluster_dir_obj s with
  | None => raise no_cluster_dir_obj
  | Some d =>
      on_connector (get_multiengine_client (Some "default") (Some (location d))
                                           None None delay max_tries)
  end.

(** Get the task client for the running cluster. *)
Definition AsyncCluster_get_task_client (delay : float) (max_tries : Z)
  : M AsyncCluster Client :=
  ensure_connector ;;;
  s <- get_self ;;
  match cluster_dir_obj s with
  | None => raise no_cluster_dir_obj
  | Some d =>
      on_connector (get_task_client (Some "default") (Some (location d))
                                    None None delay max_tries)
  end.

(** The loop of [get_logs_by_name] over the listing of the log directory. *)
Fixpoint read_logs (log_dir name : string) (listing : list string)
         (logs : gmap string string) : M AsyncCluster (gmap string string) :=
  match listing with
  | [] => ret logs
  | log :: listing' =>
      if startswith log (name +:+ "-") && endswith log ".log" then
        content <- ask_result (read_file (os_path_join log_dir log)) ;;
        read_logs log_dir name listing' (<[log := content]> logs)
      else
        read_logs log_dir name listing' logs
  end.

Definition get_logs_by_name (name : string)
  : M AsyncCluster (gmap string string) :=
  s <- get_self ;;
  match cluster_dir_obj s with
  | None => raise no_cluster_dir_obj
  | Some d =>
      let log_dir := log_dir d in
      listing <- ask_result (os_listdir log_dir) ;;
      read_logs log_dir name listing ∅
  end.

Definition get_ipengine_logs : M AsyncCluster (gmap string string) :=
  get_logs_by_name "ipengine".

Definition get_ipcontroller_logs : M AsyncCluster (gmap string string) :=
  get_logs_by_name "ipcontroller".

Definition get_ipcluster_logs : M AsyncCluster (gmap string string) :=
  get_logs_by_name "ipcluster".

Definition get_logs : M AsyncCluster (gmap string string) :=
  d <- get_ipcluster_logs ;;
  e <- get_ipengine_logs ;;
  let d := dict_update d e in
  c <- get_ipcontroller_logs ;;
  let d := dict_update d c in
  ret d.

(** [Cluster.get_logs_by_name(self, name='ipcluter')] hands [name] to the
    AsyncCluster it wraps; [None] is the argument left out. *)
Definition Cluster_get_logs_by_name (name : option string)
  : M AsyncCluster (gmap string string) :=
  get_logs_by_name (default "ipcluter" name).

(** [AsyncCluster.get_logs_by_name(self, name='ipcluster')] *)
Definition AsyncCluster_get_logs_by_name (name : option string)
  : M AsyncCluster (gmap string string) :=
  get_logs_by_name (default "ipcluster" name).

End AsyncClusterMore.

(** ** Calls with keyword arguments *)

(** The names among the keywords that no parameter has. *)
Definition unknown_keywords (params kw : list (string * PyVal)) : list string :=
  List.filter (fun k => negb (existsb (String.eqb k) (map fst params)))
              (map fst kw).

(** Positional arguments first, then keywords, then defaults; a parameter
    given twice is a TypeError ([None]). *)
Fixpoint bind_params (params : list (string * PyVal)) (args : list PyVal)
         (kw : list (string * PyVal)) : option (list (string * PyVal)) :=
  match params with
  | [] => match args with [] => Some [] | _ :: _ => None end
  | (x, d) :: ps =>
      match args with
      | a :: args' =>
          match bound x kw with
          | Some _ => None
          | None => option_map (cons (x, a)) (bind_params ps args' kw)
          end
      | [] =>
          option_map (cons (x, default d (bound x kw))) (bind_params ps [] kw)
      end
  end.

Definition bind_call (params : list (string * PyVal)) (args : list PyVal)
           (kw : list (string * PyVal)) : option (list (string * PyVal)) :=
  match unknown_keywords params kw with
  | [] => bind_params params args kw
  | _ :: _ => None
  end.

(** The value of a parameter inside the body of the function. *)
Definition local (b : list (string * PyVal)) (x : string) : PyVal :=
  default PyNone (bound x b).

(** [ClientConnector.get_task_client] has the parameters of the
    asynchronous method. *)
Definition params_ClientConnector_get_task_client : list (string * PyVal) :=
  params_AsyncClientConnector_get_task_client.

(** [AsyncClientConnector.get_task_client]: the call
    [self.get_client(profile, cluster_dir, furl_or_file,
     'ipcontroller-tc.furl', ipython_dir, delay, max_tries)] *)
Definition AsyncClientConnector_get_task_client_call
           (b : list (string * PyVal)) : option (list (string * PyVal)) :=
  bind_positional params_AsyncClientConnector_get_client
    [local b "profile"; local b "cluster_dir"; local b "furl_or_file";
     PyStr "ipcontroller-tc.furl"; local b "ipython_dir";
     local b "delay"; local b "max_tries"].

(** [Cluster.get_task_client(delay, max_tries)], down to the parameters
    [AsyncClientConnector.get_client] runs with:
    [self.client_connector.get_task_client(cluster_dir=location,
     delay=delay, max_tries=max_tries)], then the call in
    [ClientConnector.get_task_client], then the one in
    [AsyncClientConnector.get_task_client]. *)
Definition Cluster_get_task_client_call (location delay max_tries : PyVal)
  : option (list (string * PyVal)) :=
  match bind_call params_ClientConnector_get_task_client []
          [("cluster_dir", location); ("delay", delay);
           ("max_tries", max_tries)] with
  | None => None
  | Some b1 =>
      match ClientConnector_get_task_client_call
              (local b1 "profile") (local b1 "cluster_dir")
              (local b1 "furl_or_file") (local b1 "ipython_dir")
              (local b1 "delay") (local b1 "max_tries") with
      | None => None
      | Some b2 => AsyncClientConnector_get_task_client_call b2
      end
  end.

(** ** Files for the examples *)

Definition booting_listing : list string :=
  ["ipcluster-4711.log"; "ipengine-4712.log"; "ipcontroller-4713.log";
   "ipcluter-notes.log"; "ipengine-4712.out"].

Definition booting_files (ready listening : nat) (cls : string)
  : @ExternalFiles (booting ready listening cls) := {|
  create_cluster_dir_by_profile := fun (i : string) (p : option string)
                                       (w : @World (booting ready listening cls)) =>
    (Ok (mkClusterDir (i +:+ "/cluster_" +:+ default "None" p)
                      (i +:+ "/cluster_" +:+ default "None" p +:+ "/security")
                      (i +:+ "/cluster_" +:+ default "None" p +:+ "/log")), w);
  os_listdir := fun _ _ => Ok booting_listing;
  read_file := fun path _ => Ok ("log of " +:+ path);
  Tub_new := fun (w : @World (booting ready listening cls)) => (1%nat, w)
|}.

Definition started_files : @ExternalFiles started := booting_files 0 0 mec_class.

(** A cluster handle for the directory [d], in the world [w]. *)
Definition cluster_in (E : External) (d : ClusterDirObj) (w : @World E)
  : @Sys E AsyncCluster :=
  @mkSys E AsyncCluster (new_cluster (Some d) true) w [].

Definition default_dir : ClusterDirObj :=
  mkClusterDir "/home/user/.ipython/cluster_default"
               "/home/user/.ipython/cluster_default/security"
               "/home/user/.ipython/cluster_default/log".

(** The cluster starts, but the launcher never reports that it stopped;
    [gatherBoth], called with [consumeErrors=True], fires all the same. *)
Definition unobserved : External := {|
  World := nat;
  PyClass := string;
  find_furl := booting_find_furl 0;
  is_valid_furl_or_file := booting_is_valid;
  validate_furl_or_file := fun _ _ => Ok tt;
  find_cluster_dir := fun d _ =>
    Ok (mkClusterDir d (d +:+ "/security") (d +:+ "/log"));
  find_cluster_dir_by_profile := fun i p _ =>
    Ok (mkClusterDir (i +:+ "/cluster_" +:+ p)
                     (i +:+ "/cluster_" +:+ p +:+ "/security")
                     (i +:+ "/cluster_" +:+ p +:+ "/log"));
  get_ipython_dir := fun _ => "/home/user/.ipython";
  tub_getReference := booting_getReference 0;
  rr_callRemote := fun _ _ w => (Ok mec_class, w);
  elapse := fun _ w => S w;
  import_item := booting_import_item;
  os_getcwd := fun _ => "/home/user";
  launcher_start := fun _ w => (Ok PyNone, w);
  launcher_observe_stop := fun _ w =>
    (Raise (ForeignError "the launcher was lost"), w);
  launcher_stop := fun _ w => (Ok PyNone, w);
  gatherBoth := fun l => Ok PyNone
|}.

(** The controller is up, but the launcher fails to start a cluster and
    never reports a stop. *)
Definition launcher_down : External := {|
  World := nat;
  PyClass := string;
  find_furl := booting_find_furl 0;
  is_valid_furl_or_file := booting_is_valid;
  validate_furl_or_file := fun _ _ => Ok tt;
  find_cluster_dir := fun d _ =>
    Ok (mkClusterDir d (d +:+ "/security") (d +:+ "/log"));
  find_cluster_dir_by_profile := fun i p _ =>
    Raise (ClusterDirError ("Cluster dir not found: " +:+ p));
  get_ipython_dir := fun _ => "/home/user/.ipython";
  tub_getReference := booting_getReference 0;
  rr_callRemote := fun _ _ w => (Raise (ForeignError "connection lost"), w);
  elapse := fun _ w => S w;
  import_item := booting_import_item;
  os_getcwd := fun _ => "/home/user";
  launcher_start := fun _ w => (Raise (ForeignError "ipcluster did not start"), w);
  launcher_observe_stop := fun _ w =>
    (Raise (ForeignError "the launcher was lost"), w);
  launcher_stop := fun _ w => (Ok PyNone, w);
  gatherBoth := fun l => Ok PyNone
|}.

Definition launcher_down_files : @ExternalFiles launcher_down := {|
  create_cluster_dir_by_profile := fun (i : string) (p : option string)
                                       (w : @World launcher_down) =>
    (Ok default_dir, w);
  os_listdir := fun _ _ => Ok booting_listing;
  read_file := fun path _ => Ok ("log of " +:+ path);
  Tub_new := fun (w : @World launcher_down) => (1%nat, w)
|}.

(** * Properties *)

Section RetryLoop.
Context `{External}.

(** ** One step of the retry loop *)

Lemma _try_to_connect_step f d m a st :
  _try_to_connect f d m a st =
  if Z_lt_dec a m then
    match connect_once f (logged (LogConnecting a) st) with
    | (Ok rr, st') => (Ok rr, st')
    | (Raise e, st') =>
        if Z.eq_dec a (m - 1)%Z then (Raise e, st')
        else _try_to_connect f (1.5 * d)%float m (a + 1)%Z (slept d st')
    end
  else (Raise (ClientConnectorError (max_tries_exceeded m)), st).
Proof.
  rewrite _try_to_connect_equation_1.
  destruct (Z_lt_dec a m) as [Hlt|Hge]; simpl; [|reflexivity].
  unfold bind at 1. unfold emit at 1. unfold try_except_else.
  fold (logged (LogConnecting a) st).
  destruct (connect_once f (logged (LogConnecting a) st)) as [[rr|e] st'];
    [reflexivity|].
  destruct (Z.eq_dec a (m - 1)%Z); [reflexivity|].
  unfold sleep_deferred, bind, emit, foreign, ret, slept; simpl.
  destruct (_try_to_connect f (1.5 * d)%float m (a + 1)%Z _) as [[rr|e'] st''];
    reflexivity.
Qed.

(** The induction principle of the loop: the four ways an activation of
    [_try_to_connect] ends. *)
Lemma _try_to_connect_cases (f : string) (m : Z)
      (P : float -> Z -> Sys Connector -> result Ref * Sys Connector -> Prop) :
  (forall d a st, ~ (a < m)%Z ->
     P d a st (Raise (ClientConnectorError (max_tries_exceeded m)), st)) ->
  (forall d a st rr st', (a < m)%Z ->
     connect_once f (logged (LogConnecting a) st) = (Ok rr, st') ->
     P d a st (Ok rr, st')) ->
  (forall d a st e st', (a < m)%Z -> a = (m - 1)%Z ->
     connect_once f (logged (LogConnecting a) st) = (Raise e, st') ->
     P d a st (Raise e, st')) ->
  (forall d a st e st' out, (a < m)%Z -> a <> (m - 1)%Z ->
     connect_once f (logged (LogConnecting a) st) = (Raise e, st') ->
     _try_to_connect f (1.5 * d)%float m (a + 1)%Z (slept d st') = out ->
     P (1.5 * d)%float (a + 1)%Z (slept d st') out ->
     P d a st out) ->
  forall d a st, P d a st (_try_to_connect f d m a st).
Proof.
  intros Hover Hok Hlast Hretry d a st.
  remember (Z.to_nat (m - a)%Z) as n eqn:Hn.
  revert d a st Hn.
  induction n as [n IH] using lt_wf_ind; intros d a st Hn.
  rewrite _try_to_connect_step.
  destruct (Z_lt_dec a m) as [Hlt|Hge]; [|by apply Hover].
  destruct (connect_once f (logged (LogConnecting a) st)) as [[rr|e] st'] eqn:E.
  - by apply Hok.
  - destruct (Z.eq_dec a (m - 1)%Z) as [Heq|Hne].
    + by apply Hlast.
    + eapply Hretry; eauto.
      apply (IH (Z.to_nat (m - (a + 1))%Z)); [lia|reflexivity].
Qed.

(** ** The cache and one connection attempt *)

Lemma get_reference_hit furl st ref :
  _remote_refs (self st) !! furl = Some ref ->
  get_reference furl st = (Ok ref, st).
Proof.
  intros Hhit. unfold get_reference, bind, get_self. by rewrite Hhit.
Qed.

Lemma get_reference_miss furl st :
  _remote_refs (self st) !! furl = None ->
  get_reference furl st =
  match tub_getReference furl (world st) with
  | (Ok ref, w) =>
      (Ok ref, mkSys (set_remote_ref furl ref (self st)) w
                     (trace st ++ [TubGetReference furl]))
  | (Raise e, w) =>
      (Raise e, mkSys (self st) w (trace st ++ [TubGetReference furl]))
  end.
Proof.
  intros Hmiss.
  unfold get_reference, bind, get_self, emit, foreign, _save_ref, set_self, ret.
  rewrite Hmiss. simpl.
  by destruct (tub_getReference furl (world st)) as [[ref|e] w].
Qed.

Lemma connect_once_step f st :
  connect_once f st =
  match find_furl f (world st) with
  | Raise e => (Raise e, logged (FindFurl f) st)
  | Ok furl =>
      match get_reference furl
              (mkSys (set_furl furl (self st)) (world st)
                     (trace st ++ [FindFurl f])) with
      | (Ok rr, st') => (Ok rr, logged (LogConnected f) st')
      | (Raise e, st') => (Raise e, st')
      end
  end.
Proof.
  unfold connect_once, bind at 1 2. unfold emit at 1. unfold ask_result. simpl.
  destruct (find_furl f (world st)) as [furl|e]; [|reflexivity].
  unfold bind at 1 2. unfold get_self, set_self. simpl.
  unfold bind at 1.
  by destruct (get_reference furl _) as [[rr|e] st'].
Qed.

(** The events of one attempt: the read of the source, then at most one
    connect (for the furl just read, and only if it is not cached), then
    the success message. *)
Lemma connect_once_shape f st r st' :
  connect_once f st = (r, st') ->
  exists tail,
    trace st' = (trace st ++ FindFurl f :: tail)%list /\
    (tail = [] \/ tail = [LogConnected f] \/
     exists g, find_furl f (world st) = Ok g /\
               _remote_refs (self st) !! g = None /\
               (tail = [TubGetReference g] \/
                tail = [TubGetReference g; LogConnected f])) /\
    _remote_refs (self st) ⊆ _remote_refs (self st') /\
    tub (self st') = tub (self st).
Proof.
  rewrite connect_once_step.
  destruct (find_furl f (world st)) as [g|e] eqn:Hfind.
  - destruct (_remote_refs (self st) !! g) as [ref|] eqn:Hcache.
    + rewrite (get_reference_hit g _ ref) by exact Hcache.
      intros [= <- <-]. exists [LogConnected f]. simpl.
      rewrite <- app_assoc. repeat split; auto.
    + rewrite get_reference_miss by exact Hcache. simpl.
      destruct (tub_getReference g (world st)) as [[ref|e] w];
        intros [= <- <-]; simpl.
      * exists [TubGetReference g; LogConnected f].
        rewrite <- !app_assoc. repeat split; eauto 10.
        by apply insert_subseteq.
      * exists [TubGetReference g].
        rewrite <- !app_assoc. repeat split; eauto 10.
  - intros [= <- <-]. exists []. simpl. repeat split; auto.
Qed.

Lemma connect_once_schedule f st r st' :
  connect_once f st = (r, st') ->
  exists evs, trace st' = (trace st ++ evs)%list /\ schedule evs = [].
Proof.
  intros Hrun. destruct (connect_once_shape _ _ _ _ Hrun)
    as (tail & -> & Htail & _).
  exists (FindFurl f :: tail). split; [reflexivity|].
  destruct Htail as [->|[->|(g & _ & _ & [->| ->])]]; reflexivity.
Qed.

Lemma schedule_app tr1 tr2 :
  schedule (tr1 ++ tr2) = (schedule tr1 ++ schedule tr2)%list.
Proof. apply omap_app. Qed.

(** ** The delays grow by repeated multiplication *)

Lemma grown_next k d : grown k (1.5 * d)%float = grown (S k) d.
Proof. unfold grown. by rewrite Nat.iter_succ_r. Qed.

Lemma backoff_shift d a n :
  (1 <= n)%nat ->
  inl a :: inr d :: backoff (1.5 * d)%float (a + 1)%Z n = backoff d a (S n).
Proof.
  intros Hn. unfold backoff.
  replace (S n - 1)%nat with (S (n - 1)) by lia.
  rewrite <- cons_seq. simpl.
  f_equal. f_equal. f_equal; [f_equal; lia|].
  rewrite <- fmap_S_seq.
  generalize (seq 0 (n - 1)) as l. induction l as [|k l IH]; simpl.
  - reflexivity.
  - rewrite grown_next, IH. do 2 f_equal. f_equal. lia.
Qed.

Lemma try_to_connect_schedule f m d a st :
  (a < m)%Z ->
  exists new n,
    trace (snd (_try_to_connect f d m a st)) = (trace st ++ new)%list /\
    (1 <= n)%nat /\ (a + Z.of_nat n <= m)%Z /\
    schedule new = backoff d a n.
Proof.
  apply (_try_to_connect_cases f m (fun d a st out =>
    (a < m)%Z ->
    exists new n,
      trace (snd out) = (trace st ++ new)%list /\
      (1 <= n)%nat /\ (a + Z.of_nat n <= m)%Z /\
      schedule new = backoff d a n)); clear d a st.
  - intros d a st Hge Hlt. lia.
  - intros d a st rr st' Hlt Hrun _.
    destruct (connect_once_schedule _ _ _ _ Hrun) as (evs & Htr & Hsch).
    exists (LogConnecting a :: evs), 1%nat. simpl in *.
    rewrite Htr, <- app_assoc, Hsch. repeat split; lia.
  - intros d a st e st' Hlt Hlast Hrun _.
    destruct (connect_once_schedule _ _ _ _ Hrun) as (evs & Htr & Hsch).
    exists (LogConnecting a :: evs), 1%nat. simpl in *.
    rewrite Htr, <- app_assoc, Hsch. repeat split; lia.
  - intros d a st e st' out Hlt Hne Hrun _ IH _.
    destruct IH as (new & n & Htr & Hn & Hle & Hsch); [lia|].
    destruct (connect_once_schedule _ _ _ _ Hrun) as (evs & Htr' & Hsch').
    exists (LogConnecting a :: evs ++ Sleep d :: new)%list, (S n).
    simpl in *. rewrite Htr, Htr', <- !app_assoc. simpl.
    repeat split; [lia..|].
    rewrite schedule_app, Hsch'. simpl.
    fold (schedule new). rewrite Hsch. by apply backoff_shift.
Qed.

Lemma attempts_schedule tr : attempts tr = omap left_of (schedule tr).
Proof.
  induction tr as [|[] tr IH]; simpl; rewrite ?IH; reflexivity.
Qed.

Lemma sleeps_schedule tr : sleeps tr = omap right_of (schedule tr).
Proof.
  induction tr as [|[] tr IH]; simpl; rewrite ?IH; reflexivity.
Qed.

Lemma backoff_attempts d a n :
  (1 <= n)%nat ->
  omap left_of (backoff d a n) = (fun k => (a + Z.of_nat k)%Z) <$> seq 0 n.
Proof.
  intros Hn. unfold backoff.
  replace n with (S (n - 1)) at 2 by lia.
  rewrite <- cons_seq, <- fmap_S_seq. simpl. f_equal; [f_equal; lia|].
  generalize (seq 0 (n - 1)) as l.
  induction l as [|k l IH]; simpl; [reflexivity|].
  rewrite IH. f_equal. lia.
Qed.

Lemma backoff_sleeps d a n :
  omap right_of (backoff d a n) = (fun k => grown k d) <$> seq 0 (n - 1).
Proof.
  unfold backoff. simpl. generalize (seq 0 (n - 1)) as l.
  induction l as [|k l IH]; simpl; [reflexivity|]. by rewrite IH.
Qed.

(** The activation that ends a run: the attempts before it failed, each
    was followed by its wait, and its own attempt is the outcome of the
    run.  A run that fails ends at the attempt of index m - 1. *)
Lemma try_to_connect_path f m d a st :
  (a < m)%Z ->
  exists new n st_n,
    trace (snd (_try_to_connect f d m a st)) = (trace st ++ new)%list /\
    (1 <= n)%nat /\ (a + Z.of_nat n <= m)%Z /\
    schedule new = backoff d a n /\
    retries f m d a st (grown (n - 1) d) (a + Z.of_nat (n - 1))%Z st_n /\
    _try_to_connect f d m a st =
      connect_once f (logged (LogConnecting (a + Z.of_nat (n - 1))) st_n) /\
    (forall e, fst (_try_to_connect f d m a st) = Raise e ->
               (a + Z.of_nat n = m)%Z).
Proof.
  apply (_try_to_connect_cases f m (fun d a st out =>
    (a < m)%Z ->
    exists new n st_n,
      trace (snd out) = (trace st ++ new)%list /\
      (1 <= n)%nat /\ (a + Z.of_nat n <= m)%Z /\
      schedule new = backoff d a n /\
      retries f m d a st (grown (n - 1) d) (a + Z.of_nat (n - 1))%Z st_n /\
      out = connect_once f (logged (LogConnecting (a + Z.of_nat (n - 1))) st_n) /\
      (forall e, fst out = Raise e -> (a + Z.of_nat n = m)%Z)));
    clear d a st.
  - intros d a st Hge Hlt. lia.
  - intros d a st rr st' Hlt Hrun _.
    destruct (connect_once_schedule _ _ _ _ Hrun) as (evs & Htr & Hsch).
    exists (LogConnecting a :: evs), 1%nat, st. simpl in *.
    rewrite Htr, <- app_assoc, Hsch, Z.add_0_r.
    repeat split; [lia..|apply retries_here|by rewrite Hrun|intros e [=]].
  - intros d a st e st' Hlt Hlast Hrun _.
    destruct (connect_once_schedule _ _ _ _ Hrun) as (evs & Htr & Hsch).
    exists (LogConnecting a :: evs), 1%nat, st. simpl in *.
    rewrite Htr, <- app_assoc, Hsch, Z.add_0_r.
    repeat split; [lia..|apply retries_here|by rewrite Hrun|intros _ _; lia].
  - intros d a st e st' out Hlt Hne Hrun _ IH _.
    destruct IH as (new & n & st_n & Htr & Hn & Hle & Hsch & Hpath & Hout & Hfail);
      [lia|].
    destruct (connect_once_schedule _ _ _ _ Hrun) as (evs & Htr' & Hsch').
    exists (LogConnecting a :: evs ++ Sleep d :: new)%list, (S n), st_n.
    simpl in Htr, Htr'. rewrite Htr, Htr', <- !app_assoc.
    replace (S n - 1)%nat with (S (n - 1)) by lia.
    replace (a + Z.of_nat (S (n - 1)))%Z with (a + 1 + Z.of_nat (n - 1))%Z
      by lia.
    rewrite <- grown_next.
    split; [reflexivity|]. split; [lia|]. split; [lia|].
    split.
    { simpl. rewrite schedule_app, Hsch'. simpl.
      fold (schedule new). rewrite Hsch. by apply backoff_shift. }
    split; [by apply (retries_next f m d a st e st')|].
    split; [exact Hout|].
    intros e' He'. specialize (Hfail e' He'). lia.
Qed.

(** C1, as the code has it: for every initial delay d0 > 0 and every
    max_tries >= 1, the events of [_try_to_connect] started at attempt 0
    are: attempt 0, a wait of d0, attempt 1, a wait of 1.5*d0, ..., attempt
    n-1, for some n between 1 and max_tries.  The wait that follows the
    k-th failed attempt is d0 multiplied k times over by 1.5 in binary64
    arithmetic, each product rounded; no more than max_tries attempts are
    made.  The loop does not give up early: the attempts 0 .. n-2 failed
    and were each followed by their wait and the next attempt, the outcome
    of attempt n-1 is the outcome of the loop, and a loop that fails has
    made all its max_tries attempts. *)
Theorem retry_delays_geometric f (d0 : float) (max_tries : Z) st :
  (0 <? d0)%float = true -> (1 <= max_tries)%Z ->
  exists new n,
    trace (snd (_try_to_connect f d0 max_tries 0 st)) = (trace st ++ new)%list /\
    schedule new = backoff d0 0 n /\
    attempts new = Z.of_nat <$> seq 0 n /\
    (1 <= n)%nat /\ (Z.of_nat (length (attempts new)) <= max_tries)%Z /\
    length (sleeps new) = (n - 1)%nat /\
    (forall k d, sleeps new !! k = Some d -> d = grown k d0) /\
    (exists st_n,
       retries f max_tries d0 0 st (grown (n - 1) d0) (Z.of_nat (n - 1)) st_n /\
       _try_to_connect f d0 max_tries 0 st =
         connect_once f (logged (LogConnecting (Z.of_nat (n - 1))) st_n)) /\
    (forall e, fst (_try_to_connect f d0 max_tries 0 st) = Raise e ->
               Z.of_nat n = max_tries).
Proof.
  intros Hd0 Hmax.
  destruct (try_to_connect_path f max_tries d0 0 st)
    as (new & n & st_n & Htr & Hn & Hle & Hsch & Hpath & Hout & Hfail); [lia|].
  assert (Hatt : attempts new = Z.of_nat <$> seq 0 n).
  { rewrite attempts_schedule, Hsch.
    rewrite backoff_attempts by exact Hn. reflexivity. }
  assert (Hsl : sleeps new = (fun k => grown k d0) <$> seq 0 (n - 1)).
  { by rewrite sleeps_schedule, Hsch, backoff_sleeps. }
  simpl in Hpath, Hout, Hfail.
  exists new, n. repeat split; auto.
  - rewrite Hatt, length_fmap, length_seq. lia.
  - by rewrite Hsl, length_fmap, length_seq.
  - intros k d Hk. rewrite Hsl, list_lookup_fmap in Hk.
    destruct (seq 0 (n - 1) !! k) as [i|] eqn:Hi; [|discriminate].
    apply lookup_seq in Hi as [-> _]. simpl in Hk. by injection Hk as <-.
  - by exists st_n.
Qed.

(** C4: when max_tries <= 0 the attempt index 0 has already reached
    max_tries: the call fails with the max_tries-exceeded error and nothing
    has been attempted (the system is unchanged). *)
Theorem no_budget_no_attempt f d (max_tries : Z) st :
  (max_tries <= 0)%Z ->
  _try_to_connect f d max_tries 0 st =
  (Raise (RetryBudgetExhausted max_tries), st).
Proof.
  intros Hmax. rewrite _try_to_connect_step.
  destruct (Z_lt_dec 0 max_tries); [lia|reflexivity].
Qed.

Lemma retries_run f m d a st d' a' st' :
  retries f m d a st d' a' st' ->
  _try_to_connect f d m a st = _try_to_connect f d' m a' st'.
Proof.
  induction 1 as [|d a st e st1 d' a' st' Hlt Hne Hfail _ IH]; [reflexivity|].
  rewrite _try_to_connect_step.
  destruct (Z_lt_dec a m); [|lia]. rewrite Hfail.
  destruct (Z.eq_dec a (m - 1)%Z); [lia|]. exact IH.
Qed.

(** Every failure of a loop that had a budget is the failure of the
    attempt with index max_tries - 1, as that attempt raised it. *)
Lemma failure_is_of_last_attempt f d (max_tries : Z) a st e st' :
  (a < max_tries)%Z ->
  _try_to_connect f d max_tries a st = (Raise e, st') ->
  exists st_last,
    connect_once f (logged (LogConnecting (max_tries - 1)) st_last)
      = (Raise e, st').
Proof.
  revert d a st.
  apply (_try_to_connect_cases f max_tries (fun d a st out =>
    (a < max_tries)%Z -> out = (Raise e, st') ->
    exists st_last,
      connect_once f (logged (LogConnecting (max_tries - 1)) st_last)
        = (Raise e, st'))).
  - intros d a st Hge Hlt. lia.
  - intros d a st rr st1 _ _ _ [=].
  - intros d a st e1 st1 _ -> Hrun _ [= -> ->]. by exists st.
  - intros d a st e1 st1 out Hlt Hne _ _ IH _ Hout. apply IH; [lia|done].
Qed.

(** C5: when the loop comes to its last allowed attempt (index
    max_tries - 1) and that attempt fails with [e], the loop fails with
    [e] itself: the same exception, not wrapped, and nothing else happens
    after the attempt. *)
Theorem last_failure_as_is f (max_tries : Z) d a st d' st_last e st' :
  retries f max_tries d a st d' (max_tries - 1)%Z st_last ->
  connect_once f (logged (LogConnecting (max_tries - 1)) st_last)
    = (Raise e, st') ->
  _try_to_connect f d max_tries a st = (Raise e, st').
Proof.
  intros Hreach Hfail. rewrite (retries_run _ _ _ _ _ _ _ _ Hreach).
  rewrite _try_to_connect_step.
  destruct (Z_lt_dec (max_tries - 1) max_tries); [|lia].
  rewrite Hfail. destruct (Z.eq_dec _ _); [reflexivity|lia].
Qed.

(** ** Every attempt reads the descriptor source again *)

Lemma reread_run_app f p tr1 tr2 :
  reread_run f p (tr1 ++ tr2) =
  match reread_run f p tr1 with
  | Some q => reread_run f q tr2
  | None => None
  end.
Proof.
  revert p. induction tr1 as [|e tr1 IH]; intros p; simpl; [reflexivity|].
  destruct (reread_step f p e); [apply IH|reflexivity].
Qed.

Lemma connect_once_reread f st r st' :
  connect_once f st = (r, st') ->
  exists evs,
    trace st' = (trace st ++ evs)%list /\
    (exists q, reread_run f Attempting evs = Some q /\ q <> Attempting) /\
    reads evs = [f] /\ attempts evs = [].
Proof.
  intros Hrun. destruct (connect_once_shape _ _ _ _ Hrun)
    as (tail & -> & Htail & _).
  exists (FindFurl f :: tail). split; [reflexivity|].
  simpl. rewrite String.eqb_refl.
  destruct Htail as [->|[->|(g & _ & _ & [->| ->])]]; simpl;
    (split; [eexists; split; [reflexivity|discriminate]|split; reflexivity]).
Qed.

Lemma attempts_app tr1 tr2 :
  attempts (tr1 ++ tr2) = (attempts tr1 ++ attempts tr2)%list.
Proof. apply omap_app. Qed.

Lemma reads_app tr1 tr2 : reads (tr1 ++ tr2) = (reads tr1 ++ reads tr2)%list.
Proof. apply omap_app. Qed.

Lemma try_to_connect_rereads f m d a st :
  exists new,
    trace (snd (_try_to_connect f d m a st)) = (trace st ++ new)%list /\
    (forall p, p <> Attempting ->
       exists q, reread_run f p new = Some q /\ q <> Attempting) /\
    reads new = replicate (length (attempts new)) f.
Proof.
  apply (_try_to_connect_cases f m (fun d a st out =>
    exists new,
      trace (snd out) = (trace st ++ new)%list /\
      (forall p, p <> Attempting ->
         exists q, reread_run f p new = Some q /\ q <> Attempting) /\
      reads new = replicate (length (attempts new)) f)); clear d a st.
  - intros d a st _. exists []. simpl. rewrite app_nil_r.
    split; [reflexivity|]. split; [|reflexivity]. intros p Hp. by exists p.
  - intros d a st rr st' _ Hrun.
    destruct (connect_once_reread _ _ _ _ Hrun)
      as (evs & Htr & (q & Hq & Hq') & Hreads & Hatt).
    exists (LogConnecting a :: evs). simpl in *.
    rewrite Htr, <- app_assoc. split; [reflexivity|]. split.
    + intros p Hp. exists q. split; [|exact Hq'].
      destruct p; try done; exact Hq.
    + fold (reads evs) (attempts evs). by rewrite Hreads, Hatt.
  - intros d a st e st' _ _ Hrun.
    destruct (connect_once_reread _ _ _ _ Hrun)
      as (evs & Htr & (q & Hq & Hq') & Hreads & Hatt).
    exists (LogConnecting a :: evs). simpl in *.
    rewrite Htr, <- app_assoc. split; [reflexivity|]. split.
    + intros p Hp. exists q. split; [|exact Hq'].
      destruct p; try done; exact Hq.
    + fold (reads evs) (attempts evs). by rewrite Hreads, Hatt.
  - intros d a st e st' out _ _ Hrun _ (new & Htr & Hnew & Hcount).
    destruct (connect_once_reread _ _ _ _ Hrun)
      as (evs & Htr' & (q & Hq & Hq') & Hreads & Hatt).
    exists (LogConnecting a :: evs ++ Sleep d :: new)%list. simpl in *.
    rewrite Htr, Htr', <- !app_assoc. split; [reflexivity|]. split.
    + intros p Hp. destruct (Hnew q Hq') as (q2 & Hq2 & Hq2').
      exists q2. split; [|exact Hq2'].
      assert (reread_run f Attempting (evs ++ Sleep d :: new) = Some q2)
        as Hall by (rewrite reread_run_app, Hq; exact Hq2).
      destruct p; try done; exact Hall.
    + fold (reads (evs ++ Sleep d :: new)) (attempts (evs ++ Sleep d :: new)).
      rewrite reads_app, attempts_app, Hreads, Hatt. simpl.
      fold (reads new) (attempts new). by rewrite Hcount.
Qed.

(** C9: in every run of the loop each attempt starts by reading the
    descriptor source [f] again, and the Tub is only asked to connect with
    a furl read in the same attempt.  So when the run comes to attempt k,
    the source is not valid then (the file is still empty), and after the
    wait it holds a furl the controller answers to, attempt k+1 reads that
    furl and the connection succeeds on attempt k+1. *)
Theorem attempts_reread_source f (m : Z) d0 a0 st0 d k st e furl r w' :
  retries f m d0 a0 st0 d k st ->
  (k + 1 < m)%Z ->
  find_furl f (world st) = Raise e ->
  find_furl f (elapse d (world st)) = Ok furl ->
  tub_getReference furl (elapse d (world st)) = (Ok r, w') ->
  exists st',
    _try_to_connect f d0 m a0 st0 =
      (Ok (default r (_remote_refs (self st) !! furl)), st') /\
    trace st' =
      (trace st ++
       [LogConnecting k; FindFurl f; Sleep d;
        LogConnecting (k + 1); FindFurl f] ++
       match _remote_refs (self st) !! furl with
       | Some _ => []
       | None => [TubGetReference furl]
       end
       ++ [LogConnected f])%list /\
    _remote_refs (self st') !! furl =
      Some (default r (_remote_refs (self st) !! furl)) /\
    exists new,
      trace st' = (trace st0 ++ new)%list /\
      rereads f new = true /\
      reads new = replicate (length (attempts new)) f.
Proof.
  intros Hreach Hk Hempty Hvalid Hanswer.
  assert (Hrun : exists st',
    _try_to_connect f d m k st =
      (Ok (default r (_remote_refs (self st) !! furl)), st') /\
    trace st' =
      (trace st ++
       [LogConnecting k; FindFurl f; Sleep d;
        LogConnecting (k + 1); FindFurl f] ++
       match _remote_refs (self st) !! furl with
       | Some _ => []
       | None => [TubGetReference furl]
       end
       ++ [LogConnected f])%list /\
    _remote_refs (self st') !! furl =
      Some (default r (_remote_refs (self st) !! furl))).
  { rewrite _try_to_connect_step.
    destruct (Z_lt_dec k m); [|lia].
    rewrite connect_once_step. simpl. rewrite Hempty.
    destruct (Z.eq_dec k (m - 1)%Z); [lia|].
    rewrite _try_to_connect_step.
    destruct (Z_lt_dec (k + 1) m); [|lia].
    rewrite connect_once_step. simpl. rewrite Hvalid.
    destruct (_remote_refs (self st) !! furl) as [ref|] eqn:Hcache.
    - rewrite (get_reference_hit furl _ ref) by exact Hcache.
      eexists. split; [reflexivity|]. simpl.
      split; [by rewrite <- !app_assoc|exact Hcache].
    - rewrite get_reference_miss by exact Hcache. simpl. rewrite Hanswer.
      eexists. split; [reflexivity|]. simpl.
      split; [by rewrite <- !app_assoc|apply lookup_insert_eq]. }
  destruct Hrun as (st' & Hrun & Htr & Hcached).
  rewrite <- (retries_run _ _ _ _ _ _ _ _ Hreach) in Hrun.
  exists st'. repeat split; try assumption.
  destruct (try_to_connect_rereads f m d0 a0 st0)
    as (new & Hnew & Hphase & Hreads).
  rewrite Hrun in Hnew. exists new. repeat split; try assumption.
  destruct (Hphase Idle) as (q & Hq & Hq'); [discriminate|].
  unfold rereads. rewrite Hq. by destruct q.
Qed.

End RetryLoop.

(** ** The connection cache *)

Section Cache.
Context `{External}.

Ltac run_monad :=
  unfold bind, catch, try_except_else, emit, get_self, set_self, ask,
    ask_result, foreign, lift, ret, raise in *; simpl in *.

Ltac trace_suffix :=
  eexists; split;
  [ first [ symmetry; apply app_nil_r
          | rewrite <- ?app_assoc; reflexivity ]
  | try reflexivity ].

Lemma grows_refl st : grows st st.
Proof.
  split; [done|]. split; [done|]. exists [].
  split; [by rewrite app_nil_r|]. intros X HX. inversion HX.
Qed.

Lemma connects_app tr1 tr2 :
  connects (tr1 ++ tr2) = (connects tr1 ++ connects tr2)%list.
Proof. apply omap_app. Qed.

Lemma grows_trans st1 st2 st3 : grows st1 st2 -> grows st2 st3 -> grows st1 st3.
Proof.
  intros (Hsub12 & Htub12 & new12 & Htr12 & Hnew12)
         (Hsub23 & Htub23 & new23 & Htr23 & Hnew23).
  split; [by etransitivity|]. split; [congruence|].
  exists (new12 ++ new23)%list. split; [by rewrite Htr23, Htr12, app_assoc|].
  intros X. rewrite connects_app, elem_of_app. intros [HX|HX]; [by auto|].
  specialize (Hnew23 X HX).
  destruct (_remote_refs (self st1) !! X) as [ref|] eqn:Hc; [|done].
  eapply lookup_weaken in Hc; [|exact Hsub12]. congruence.
Qed.

(** A step that leaves the connector alone and asks for no connection. *)
Lemma grows_quiet (st st' : Sys Connector) new :
  self st' = self st -> trace st' = (trace st ++ new)%list ->
  connects new = [] -> grows st st'.
Proof.
  intros Hself Htr Hnew. unfold grows. rewrite Hself.
  split; [done|]. split; [done|]. exists new. split; [done|].
  rewrite Hnew. intros X HX. inversion HX.
Qed.

Lemma get_reference_grows X st : grows st (snd (get_reference X st)).
Proof.
  destruct (_remote_refs (self st) !! X) as [ref|] eqn:Hc.
  - rewrite (get_reference_hit _ _ ref) by done. apply grows_refl.
  - rewrite get_reference_miss by done.
    destruct (tub_getReference X (world st)) as [[ref|e] w]; simpl.
    + split; [by apply insert_subseteq|]. split; [done|].
      exists [TubGetReference X]. split; [done|].
      intros Y HY. apply list_elem_of_singleton in HY. by subst.
    + split; [done|]. split; [done|].
      exists [TubGetReference X]. split; [done|].
      intros Y HY. apply list_elem_of_singleton in HY. by subst.
Qed.

Lemma connect_once_grows f st : grows st (snd (connect_once f st)).
Proof.
  destruct (connect_once f st) as [r st'] eqn:Hrun.
  destruct (connect_once_shape _ _ _ _ Hrun)
    as (tail & Htr & Htail & Hsub & Htub).
  split; [done|]. split; [done|].
  exists (FindFurl f :: tail). split; [done|].
  intros X HX. simpl in HX.
  destruct Htail as [->|[->|(g & _ & Hg & [->| ->])]]; simpl in HX;
    try (by inversion HX).
  - apply list_elem_of_singleton in HX. by subst.
  - apply list_elem_of_singleton in HX. by subst.
Qed.

Lemma try_to_connect_grows f d m a st :
  grows st (snd (_try_to_connect f d m a st)).
Proof.
  apply (_try_to_connect_cases f m (fun d a st out => grows st (snd out)));
    clear d a st.
  - intros. apply grows_refl.
  - intros d a st rr st' _ Hrun.
    eapply grows_trans;
      [|pose proof (connect_once_grows f (logged (LogConnecting a) st)) as Hg;
        rewrite Hrun in Hg; exact Hg].
    by apply (grows_quiet _ _ [LogConnecting a]).
  - intros d a st e st' _ _ Hrun.
    eapply grows_trans;
      [|pose proof (connect_once_grows f (logged (LogConnecting a) st)) as Hg;
        rewrite Hrun in Hg; exact Hg].
    by apply (grows_quiet _ _ [LogConnecting a]).
  - intros d a st e st' out _ _ Hrun _ IH.
    eapply grows_trans; [|exact IH].
    eapply grows_trans; [|by apply (grows_quiet st' _ [Sleep d])].
    eapply grows_trans;
      [|pose proof (connect_once_grows f (logged (LogConnecting a) st)) as Hg;
        rewrite Hrun in Hg; exact Hg].
    by apply (grows_quiet _ _ [LogConnecting a]).
Qed.

(** [_find_furl] only looks: the connector and the world are as before. *)
Lemma _find_furl_looks p c fo fn i st r st' :
  _find_furl p c fo fn i st = (r, st') ->
  self st' = self st /\ world st' = world st /\
  exists new, trace st' = (trace st ++ new)%list /\ connects new = [].
Proof.
  unfold _find_furl. run_monad. intros Hrun.
  repeat case_match; simplify_eq/=; (split; [done|]); (split; [done|]);
    trace_suffix.
Qed.

Lemma _wrap_remote_reference_looks rr st r st' :
  _wrap_remote_reference rr st = (r, st') ->
  self st' = self st /\
  exists new, trace st' = (trace st ++ new)%list /\ connects new = [].
Proof.
  unfold _wrap_remote_reference, adapt. run_monad. intros Hrun.
  repeat case_match; simplify_eq/=; (split; [done|]); trace_suffix.
Qed.

Lemma get_client_grows p c fo fn i d m st :
  grows st (snd (get_client p c fo fn i d m st)).
Proof.
  unfold get_client, try_except_else, catch, _handle_error.
  destruct (_find_furl p c fo fn i st) as [[furl_file|e] st1] eqn:Hfind.
  - apply _find_furl_looks in Hfind as (Hself & _ & new & Htr & Hnew).
    eapply grows_trans; [by apply (grows_quiet st st1 new)|].
    unfold bind, raise.
    pose proof (try_to_connect_grows furl_file d m 0 st1) as Hg.
    destruct (_try_to_connect furl_file d m 0 st1) as [[rr|e] st2];
      simpl in *; [|exact Hg].
    eapply grows_trans; [exact Hg|].
    destruct (_wrap_remote_reference rr st2) as [[cl|e] st3] eqn:Hwrap;
      apply _wrap_remote_reference_looks in Hwrap
        as (Hself' & new' & Htr' & Hnew');
      by apply (grows_quiet st2 st3 new').
  - apply _find_furl_looks in Hfind as (Hself & _ & new & Htr & Hnew).
    assert (grows st st1) by (by apply (grows_quiet st st1 new)).
    by destruct e.
Qed.

Lemma later_grows st st' : later st st' -> grows st st'.
Proof.
  induction 1 as [st|st st' X _ IH|st st' p c f n i d m _ IH|st st' w _ IH].
  - apply grows_refl.
  - eapply grows_trans; [exact IH|apply get_reference_grows].
  - eapply grows_trans; [exact IH|apply get_client_grows].
  - eapply grows_trans; [exact IH|].
    by apply (grows_quiet st' _ []); simpl; rewrite ?app_nil_r.
Qed.

Lemma get_reference_caches X st ref st1 :
  get_reference X st = (Ok ref, st1) -> _remote_refs (self st1) !! X = Some ref.
Proof.
  destruct (_remote_refs (self st) !! X) as [ref'|] eqn:Hc.
  - rewrite (get_reference_hit _ _ ref') by done. by intros [= <- <-].
  - rewrite get_reference_miss by done.
    destruct (tub_getReference X (world st)) as [[ref'|e] w]; [|done].
    intros [= <- <-]. simpl. apply lookup_insert_eq.
Qed.

Lemma get_reference_dom Y st :
  dom (_remote_refs (self (snd (get_reference Y st))))
    ⊆ dom (_remote_refs (self st)) ∪ {[Y]}.
Proof.
  destruct (_remote_refs (self st) !! Y) as [ref|] eqn:Hc.
  - rewrite (get_reference_hit _ _ ref) by done. apply union_subseteq_l.
  - rewrite get_reference_miss by done.
    destruct (tub_getReference Y (world st)) as [[ref|e] w]; simpl;
      [|apply union_subseteq_l].
    by rewrite dom_insert_L, (comm_L (∪)).
Qed.

(** C2: once [get_reference X] has connected and returned [ref], whatever
    the connector does later ([get_reference] and [get_client] calls, with
    the world changing in between), [get_reference X] returns the same
    object [ref] and does nothing else: the system, and so the list of
    connects made, is unchanged.  No connect to [X] was made in between
    either; the cache has only grown, it has one entry per key, and a call
    for [Y] adds no other key than [Y]. *)
Theorem cached_reference_is_reused X st ref st1 st2 :
  get_reference X st = (Ok ref, st1) ->
  later st1 st2 ->
  get_reference X st2 = (Ok ref, st2) /\
  (exists new, trace st2 = (trace st1 ++ new)%list /\ X ∉ connects new) /\
  _remote_refs (self st1) ⊆ _remote_refs (self st2) /\
  NoDup (map_to_list (_remote_refs (self st2))).*1 /\
  forall Y, dom (_remote_refs (self (snd (get_reference Y st2))))
              ⊆ dom (_remote_refs (self st2)) ∪ {[Y]}.
Proof.
  intros Hfirst Hlater.
  apply get_reference_caches in Hfirst.
  destruct (later_grows _ _ Hlater) as (Hsub & _ & new & Htr & Hnew).
  split; [|split; [|split; [|split]]].
  - apply get_reference_hit.
    exact (lookup_weaken _ _ X ref Hfirst Hsub).
  - exists new. split; [done|]. intros HX. apply Hnew in HX. congruence.
  - done.
  - apply NoDup_fst_map_to_list.
  - intros Y. apply get_reference_dom.
Qed.

End Cache.

(** ** What the caller of [get_client] is told *)

Section Messages.

Lemma prefix_refl s : String.prefix s s = true.
Proof. induction s as [|a s IH]; simpl; [done|]. by destruct (Ascii.ascii_dec a a). Qed.

Lemma prefix_app sub s t :
  String.prefix sub s = true -> String.prefix sub (s +:+ t) = true.
Proof.
  revert s. induction sub as [|a sub IH]; intros s;
    [intros _; by destruct (s +:+ t)|].
  destruct s as [|b s]; simpl; [done|].
  destruct (Ascii.ascii_dec a b); [apply IH|done].
Qed.

Lemma contains_refl s : contains s s = true.
Proof.
  destruct s as [|a s]; [done|].
  change (String.prefix (String a s) (String a s) || contains (String a s) s
          = true).
  by rewrite prefix_refl.
Qed.

Lemma contains_app_l sub s t :
  contains sub s = true -> contains sub (s +:+ t) = true.
Proof.
  induction s as [|a s IH]; simpl.
  - rewrite orb_false_r. intros Hp. destruct sub; [|by destruct sub].
    by destruct t.
  - intros [Hp|Hc]%orb_true_iff.
    + apply (prefix_app _ (String a s) t) in Hp. simpl in Hp. by rewrite Hp.
    + rewrite (IH Hc). apply orb_true_r.
Qed.

Lemma contains_app_r sub s t :
  contains sub t = true -> contains sub (s +:+ t) = true.
Proof.
  intros Hc. induction s as [|a s IH]; simpl; [done|].
  rewrite IH. apply orb_true_r.
Qed.

Lemma could_not_connect_split furl_file :
  could_not_connect furl_file = could_not_connect "" +:+ furl_file.
Proof. reflexivity. Qed.

End Messages.

Section GetClient.
Context `{External}.

(** C3 (as the code has it): when the descriptor source [furl_file] has
    been found and the retry loop fails, with whatever exception and after
    however many attempts, the caller of [get_client] gets one
    ClientConnectorError.  Its message ends with [furl_file] and gives both
    causes, the controller not being started and a firewall, as what the
    failure usually means.  The message is the same for every max_tries:
    it carries no attempt count. *)
Theorem exhausted_retries_one_error p c fo fn i d m st furl_file st1 e st2 :
  _find_furl p c fo fn i st = (Ok furl_file, st1) ->
  _try_to_connect furl_file d m 0 st1 = (Raise e, st2) ->
  get_client p c fo fn i d m st =
    (Raise (ClientConnectorError (could_not_connect furl_file)), st2) /\
  could_not_connect furl_file = could_not_connect "" +:+ furl_file /\
  contains furl_file (could_not_connect furl_file) = true /\
  contains "This usually means that i) the controller was not started or ii) a firewall was blocking the client from connecting to the controller"
           (could_not_connect furl_file) = true.
Proof.
  intros Hfind Hretry. split; [|split; [|split]].
  - unfold get_client, try_except_else, catch, bind, _handle_error, raise.
    by rewrite Hfind, Hretry.
  - reflexivity.
  - rewrite could_not_connect_split. apply contains_app_r, contains_refl.
  - rewrite could_not_connect_split. by apply contains_app_l.
Qed.

(** Whatever goes wrong after the descriptor source has been found, in
    the retry loop or in the adapter, ends in that same error. *)
Lemma get_client_failure p c fo fn i d m st furl_file st1 e st2 :
  _find_furl p c fo fn i st = (Ok furl_file, st1) ->
  get_client p c fo fn i d m st = (Raise e, st2) ->
  e = ClientConnectorError (could_not_connect furl_file).
Proof.
  intros Hfind. unfold get_client, try_except_else, catch, bind, _handle_error,
    raise. rewrite Hfind.
  destruct (_try_to_connect furl_file d m 0 st1) as [[rr|e1] st3];
    [|by intros [= <- _]].
  destruct (_wrap_remote_reference rr st3) as [[cl|e2] st4]; [done|].
  by intros [= <- _].
Qed.

(** C6: for a remote reference [rr] whose controller answers
    [get_client_name] with [name], the adapter makes that one remote call
    and no other, resolves [name] with [import_item], and then either
    returns the instance of the class found, built from [rr] and carrying
    the connector's Tub, or, when [import_item] raises [e], fails with [e]
    and builds nothing. *)
Theorem client_adapter rr st name w' :
  rr_callRemote rr "get_client_name" (world st) = (Ok name, w') ->
  let st' := mkSys (self st) w'
               (trace st ++ [CallRemote rr "get_client_name"; ImportItem name])
  in
  remote_calls [CallRemote rr "get_client_name"; ImportItem name]
    = [(rr, "get_client_name")] /\
  _wrap_remote_reference rr st =
    match import_item name with
    | Ok cls => (Ok (mkClient cls rr (Some (tub (self st)))), st')
    | Raise e => (Raise e, st')
    end.
Proof.
  intros Hcall. split; [reflexivity|].
  unfold _wrap_remote_reference, adapt, bind, emit, foreign, lift, get_self,
    ret, set_client_tub. simpl. rewrite Hcall. simpl.
  rewrite <- app_assoc. by destruct (import_item name).
Qed.

(** The adapter makes its one remote call also when that call fails. *)
Lemma adapter_makes_one_call rr st :
  exists new,
    trace (snd (_wrap_remote_reference rr st)) = (trace st ++ new)%list /\
    remote_calls new = [(rr, "get_client_name")].
Proof.
  unfold _wrap_remote_reference, adapt, bind, emit, foreign, lift, get_self,
    ret, set_client_tub. simpl.
  destruct (rr_callRemote rr "get_client_name" (world st)) as [[name|e] w];
    simpl.
  - exists [CallRemote rr "get_client_name"; ImportItem name].
    rewrite <- app_assoc. by destruct (import_item name).
  - by exists [CallRemote rr "get_client_name"].
Qed.

(** C7: when [furl_or_file] is absent or not valid and [furl_file_name]
    is None, [_find_furl] raises FURLError at once: nothing is looked up by
    cluster directory or by profile, and the only foreign call made is the
    validity check of [furl_or_file]. *)
Theorem no_furl_file_name_fails p c fo i st :
  match fo with
  | Some f => is_valid_furl_or_file f (world st) = false
  | None => True
  end ->
  _find_furl p c fo None i st =
    (Raise (FURLError
              "A furl_file_name must be provided if furl_or_file is not"),
     mkSys (self st) (world st)
           (trace st ++ match fo with
                        | Some f => [IsValidFurlOrFile f]
                        | None => []
                        end)) /\
  lookups (match fo with Some f => [IsValidFurlOrFile f] | None => [] end) = [].
Proof.
  intros Hfo. split; [|by destruct fo].
  unfold _find_furl, bind, emit, ask, ret, raise.
  destruct fo as [f|]; simpl.
  - by rewrite Hfo.
  - rewrite app_nil_r. by destruct st.
Qed.

End GetClient.

(** ** The blocking wrapper *)

Section Blocking.

(** C10: [ClientConnector.get_client] passes its six arguments by
    position to [AsyncClientConnector.get_client], whose fourth parameter is
    [furl_file_name]: so [ipython_dir] arrives as [furl_file_name], [delay]
    as [ipython_dir], [max_tries] as [delay], and the asynchronous
    [max_tries] keeps its default MAX_TRIES.  The sibling
    [get_task_client], whose asynchronous counterpart has the same six
    parameters, is aligned. *)
Theorem blocking_get_client_misaligned
        (profile cluster_dir furl_or_file ipython_dir delay max_tries : PyVal) :
  ClientConnector_get_client_call
    profile cluster_dir furl_or_file ipython_dir delay max_tries =
  Some [("profile", profile); ("cluster_dir", cluster_dir);
        ("furl_or_file", furl_or_file); ("furl_file_name", ipython_dir);
        ("ipython_dir", delay); ("delay", max_tries);
        ("max_tries", PyInt MAX_TRIES)] /\
  ClientConnector_get_task_client_call
    profile cluster_dir furl_or_file ipython_dir delay max_tries =
  Some [("profile", profile); ("cluster_dir", cluster_dir);
        ("furl_or_file", furl_or_file); ("ipython_dir", ipython_dir);
        ("delay", delay); ("max_tries", max_tries)].
Proof. split; reflexivity. Qed.

(** Read by parameter name. *)
Lemma blocking_get_client_received
      (profile cluster_dir furl_or_file ipython_dir delay max_tries : PyVal) :
  exists b,
    ClientConnector_get_client_call
      profile cluster_dir furl_or_file ipython_dir delay max_tries = Some b /\
    bound "furl_file_name" b = Some ipython_dir /\
    bound "ipython_dir" b = Some delay /\
    bound "delay" b = Some max_tries /\
    bound "max_tries" b = Some (PyInt MAX_TRIES).
Proof. eexists. split; [reflexivity|]. repeat split. Qed.

End Blocking.

(** ** The life cycle of a cluster *)

Section Lifecycle.
Context `{External}.

Lemma stop_refused (c : Sys AsyncCluster) :
  state (self c) <> "running" ->
  AsyncCluster_stop c = (Raise (ClusterStateError "Cluster not running"), c).
Proof.
  intros Hstate. unfold AsyncCluster_stop, bind, get_self, raise.
  destruct (String.eqb_spec (state (self c)) "running"); [done|reflexivity].
Qed.

Lemma start_refused (c : Sys AsyncCluster) n :
  state (self c) = "running" ->
  AsyncCluster_start n c =
    (Raise (ClusterStateError "Cluster is already running"), c).
Proof.
  intros Hstate. unfold AsyncCluster_start, bind, get_self, raise.
  by rewrite Hstate.
Qed.

Lemma start_succeeded (c : Sys AsyncCluster) n v c1 :
  AsyncCluster_start n c = (Ok v, c1) ->
  state (self c1) = "running" /\
  launcher (self c1) = Some (mkLauncher (os_getcwd (world c)) n "start").
Proof.
  unfold AsyncCluster_start, _handle_start, bind, get_self, set_self, ask,
    emit, foreign, ret, raise. simpl.
  destruct (negb (String.eqb (state (self c)) "running")); [|done]. simpl.
  destruct (launcher_start _ (world c)) as [[r|e] w]; [|done].
  by intros [= <- <-].
Qed.

(** C8: [stop] on a cluster in state 'before' or 'after' fails with
    ClusterStateError and changes nothing; [start] on a cluster in state
    'running' fails with ClusterStateError; and after a [start] that
    succeeded, a [stop] whose stop-observation signal from the launcher
    completes leaves the cluster in state 'after', whatever happened to the
    world in between. *)
Theorem cluster_lifecycle (c : Sys AsyncCluster) (n : Z) :
  (state (self c) = "before" \/ state (self c) = "after" ->
   AsyncCluster_stop c =
     (Raise (ClusterStateError "Cluster not running"), c)) /\
  (state (self c) = "running" ->
   AsyncCluster_start n c =
     (Raise (ClusterStateError "Cluster is already running"), c)) /\
  (forall v c1 w v1 w1,
     AsyncCluster_start n c = (Ok v, c1) ->
     launcher_observe_stop (mkLauncher (os_getcwd (world c)) n "start") w
       = (Ok v1, w1) ->
     state (self c1) = "running" /\
     exists c2,
       AsyncCluster_stop (mkSys (self c1) w (trace c1)) =
         (gatherBoth
            [Ok PyNone;
             fst (launcher_stop (mkLauncher (os_getcwd (world c)) n "start")
                                w1)], c2) /\
       state (self c2) = "after").
Proof.
  split; [|split].
  - intros [Hs|Hs]; apply stop_refused; by rewrite Hs.
  - apply start_refused.
  - intros v c1 w v1 w1 Hstart Hobserved.
    destruct (start_succeeded _ _ _ _ Hstart) as [Hrunning Hlauncher].
    split; [exact Hrunning|].
    unfold AsyncCluster_stop, _handle_stop, fired, bind, get_self, set_self,
      emit, foreign, lift, ret. simpl.
    rewrite Hrunning, Hlauncher. simpl. rewrite Hobserved. simpl.
    destruct (launcher_stop _ w1) as [v2 w2]. simpl.
    eexists. split; reflexivity.
Qed.

End Lifecycle.

(** * The properties on examples *)

Lemma retry_delays_geometric_witness :
  let st := fresh_connector ready_at_third 0%nat in
  (0 <? 0.01)%float = true /\ (1 <= 5)%Z /\
  exists new n,
    trace (snd (_try_to_connect mec_furl_file 0.01 5 0 st))
      = (trace st ++ new)%list /\
    schedule new = backoff 0.01 0 n /\
    attempts new = Z.of_nat <$> seq 0 n /\
    (1 <= n)%nat /\ (Z.of_nat (length (attempts new)) <= 5)%Z /\
    length (sleeps new) = (n - 1)%nat /\
    (forall k d, sleeps new !! k = Some d -> d = grown k 0.01) /\
    (exists st_n,
       retries mec_furl_file 5 0.01 0 st (grown (n - 1) 0.01)
               (Z.of_nat (n - 1)) st_n /\
       _try_to_connect mec_furl_file 0.01 5 0 st =
         connect_once mec_furl_file
           (logged (LogConnecting (Z.of_nat (n - 1))) st_n)) /\
    (forall e, fst (_try_to_connect mec_furl_file 0.01 5 0 st) = Raise e ->
               Z.of_nat n = 5%Z).
Proof.
  intros st. split; [reflexivity|]. split; [lia|].
  apply (retry_delays_geometric (H := ready_at_third)); [reflexivity|lia].
Defined.

(** C1, as it was stated, fails for the default delay 0.2 and a
    controller that was never started.  The wait after the second failed
    attempt (k = 1) is the float 1.5*0.2 = 0.30000000000000004, whose value
    is not the value of 0.2 times 1.5; and the wait after the third (k = 2)
    is not even the float product of 0.2 and 1.5^2 = 2.25. *)
Lemma float_delay_is_rounded :
  let out := _try_to_connect mec_furl_file DELAY 4 0
               (fresh_connector never_started 0%nat) in
  attempts (trace (snd out)) = [0; 1; 2; 3]%Z /\
  exists d1 d2 q0 q1,
    sleeps (trace (snd out)) = [DELAY; d1; d2] /\
    float_value DELAY = Some q0 /\ float_value d1 = Some q1 /\
    ~ (q1 == q0 * 1.5 ^ 1)%Q /\
    d2 <> (DELAY * (1.5 * 1.5))%float.
Proof.
  vm_compute. split; [reflexivity|].
  eexists _, _, _, _. split; [reflexivity|].
  split; [reflexivity|]. split; [reflexivity|].
  split; [vm_compute; discriminate|].
  intros Heq. apply (f_equal Prim2SF) in Heq. vm_compute in Heq.
  discriminate.
Qed.

(** The end-to-end example of the design: the file is empty for two
    attempts, the third connects, after waits of 0.01 and 0.015. *)
Example third_attempt_connects :
  let out := _try_to_connect mec_furl_file 0.01 5 0
               (fresh_connector ready_at_third 0%nat) in
  fst out = Ok 7%nat /\
  attempts (trace (snd out)) = [0; 1; 2]%Z /\
  sleeps (trace (snd out)) = [0.01; 1.5 * 0.01]%float.
Proof.
  vm_compute. split; [reflexivity|]. split; reflexivity.
Qed.

Lemma no_budget_no_attempt_witness :
  (-1 <= 0)%Z /\
  _try_to_connect mec_furl_file DELAY (-1) 0 (fresh_connector started 0%nat) =
  (Raise (RetryBudgetExhausted (-1)), fresh_connector started 0%nat).
Proof.
  split; [lia|]. apply (no_budget_no_attempt (H := started)). lia.
Defined.

Lemma last_failure_as_is_witness :
  let st := fresh_connector never_started 0%nat in
  let st_last :=
    slept 0.2 (snd (connect_once mec_furl_file (logged (LogConnecting 0) st)))
  in
  let e := FURLError ("Not a valid FURL or FURL file: " +:+ mec_furl_file) in
  let st' :=
    snd (connect_once mec_furl_file (logged (LogConnecting (2 - 1)) st_last))
  in
  retries mec_furl_file 2 0.2 0 st (1.5 * 0.2)%float (2 - 1)%Z st_last /\
  connect_once mec_furl_file (logged (LogConnecting (2 - 1)) st_last)
    = (Raise e, st') /\
  _try_to_connect mec_furl_file 0.2 2 0 st = (Raise e, st').
Proof.
  intros st st_last e st'.
  assert (Hreach :
    retries mec_furl_file 2 0.2 0 st (1.5 * 0.2)%float (2 - 1)%Z st_last).
  { eapply (retries_next mec_furl_file 2 0.2 0 st e); [lia|lia| |].
    - reflexivity.
    - apply retries_here. }
  assert (Hfail :
    connect_once mec_furl_file (logged (LogConnecting (2 - 1)) st_last)
      = (Raise e, st')) by reflexivity.
  split; [exact Hreach|]. split; [exact Hfail|].
  exact (last_failure_as_is mec_furl_file 2 0.2 0 st (1.5 * 0.2)%float st_last e st'
           Hreach Hfail).
Defined.

Lemma attempts_reread_source_witness :
  let st0 := fresh_connector ready_at_third 0%nat in
  let st :=
    slept 0.01 (snd (connect_once mec_furl_file (logged (LogConnecting 0) st0)))
  in
  let d := (1.5 * 0.01)%float in
  let e := FURLError ("Not a valid FURL or FURL file: " +:+ mec_furl_file) in
  let furl := "pb://controller@127.0.0.1:10105/mec" in
  retries mec_furl_file 5 0.01 0 st0 d 1 st /\
  (1 + 1 < 5)%Z /\
  find_furl mec_furl_file (world st) = Raise e /\
  find_furl mec_furl_file (elapse d (world st)) = Ok furl /\
  tub_getReference furl (elapse d (world st)) = (Ok 7%nat, 2%nat) /\
  exists st',
    _try_to_connect mec_furl_file 0.01 5 0 st0 =
      (Ok (default 7%nat (_remote_refs (self st) !! furl)), st') /\
    trace st' =
      (trace st ++
       [LogConnecting 1; FindFurl mec_furl_file; Sleep d;
        LogConnecting (1 + 1); FindFurl mec_furl_file] ++
       match _remote_refs (self st) !! furl with
       | Some _ => []
       | None => [TubGetReference furl]
       end ++ [LogConnected mec_furl_file])%list /\
    _remote_refs (self st') !! furl =
      Some (default 7%nat (_remote_refs (self st) !! furl)) /\
    exists new,
      trace st' = (trace st0 ++ new)%list /\
      rereads mec_furl_file new = true /\
      reads new = replicate (length (attempts new)) mec_furl_file.
Proof.
  intros st0 st d e furl.
  assert (Hreach : retries mec_furl_file 5 0.01 0 st0 d 1 st).
  { eapply (retries_next mec_furl_file 5 0.01 0 st0 e); [lia|lia| |].
    - reflexivity.
    - apply retries_here. }
  assert (Hk : (1 + 1 < 5)%Z) by lia.
  assert (Hempty : find_furl mec_furl_file (world st) = Raise e)
    by reflexivity.
  assert (Hvalid : find_furl mec_furl_file (elapse d (world st)) = Ok furl)
    by reflexivity.
  assert (Hanswer :
    tub_getReference furl (elapse d (world st)) = (Ok 7%nat, 2%nat))
    by reflexivity.
  repeat (split; [assumption|]).
  exact (attempts_reread_source mec_furl_file 5 0.01 0 st0 d 1 st e furl
           7%nat 2%nat Hreach Hk Hempty Hvalid Hanswer).
Defined.

Lemma cached_reference_is_reused_witness :
  let X := "pb://controller@127.0.0.1:10105/mec" in
  let st := fresh_connector started 0%nat in
  let st1 := snd (get_reference X st) in
  let st2 := snd (get_reference "pb://controller@127.0.0.1:10105/tc" st1) in
  get_reference X st = (Ok 7%nat, st1) /\
  later st1 st2 /\
  get_reference X st2 = (Ok 7%nat, st2) /\
  (exists new, trace st2 = (trace st1 ++ new)%list /\ X ∉ connects new) /\
  _remote_refs (self st1) ⊆ _remote_refs (self st2) /\
  NoDup (map_to_list (_remote_refs (self st2))).*1 /\
  forall Y, dom (_remote_refs (self (snd (get_reference Y st2))))
              ⊆ dom (_remote_refs (self st2)) ∪ {[Y]}.
Proof.
  intros X st st1 st2.
  assert (Hfirst : get_reference X st = (Ok 7%nat, st1)) by reflexivity.
  assert (Hlater : later st1 st2)
    by apply later_get_reference, later_now.
  split; [exact Hfirst|]. split; [exact Hlater|].
  exact (cached_reference_is_reused X st 7%nat st1 st2 Hfirst Hlater).
Defined.

Lemma exhausted_retries_one_error_witness :
  let st := fresh_connector never_started 0%nat in
  let st1 := logged (IsValidFurlOrFile mec_furl_file) st in
  let e := FURLError ("Not a valid FURL or FURL file: " +:+ mec_furl_file) in
  let st2 := snd (_try_to_connect mec_furl_file 0.01 3 0 st1) in
  _find_furl (Some "default") None (Some mec_furl_file) None None st
    = (Ok mec_furl_file, st1) /\
  _try_to_connect mec_furl_file 0.01 3 0 st1 = (Raise e, st2) /\
  get_client (Some "default") None (Some mec_furl_file) None None 0.01 3 st =
    (Raise (ClientConnectorError (could_not_connect mec_furl_file)), st2) /\
  could_not_connect mec_furl_file = could_not_connect "" +:+ mec_furl_file /\
  contains mec_furl_file (could_not_connect mec_furl_file) = true /\
  contains "This usually means that i) the controller was not started or ii) a firewall was blocking the client from connecting to the controller"
           (could_not_connect mec_furl_file) = true.
Proof.
  intros st st1 e st2.
  assert (Hfind :
    _find_furl (Some "default") None (Some mec_furl_file) None None st
      = (Ok mec_furl_file, st1)) by reflexivity.
  assert (Hretry : _try_to_connect mec_furl_file 0.01 3 0 st1 = (Raise e, st2))
    by (vm_compute; reflexivity).
  split; [exact Hfind|]. split; [exact Hretry|].
  exact (exhausted_retries_one_error (Some "default") None (Some mec_furl_file)
           None None 0.01 3 st mec_furl_file st1 e st2 Hfind Hretry).
Defined.

(** C3, as it was stated, fails: with max_tries = 3 and a controller that
    was never started, three attempts are made and the message the caller
    gets does not contain the attempt count. *)
Lemma exhausted_error_omits_attempt_count :
  exists msg st',
    get_client (Some "default") None (Some mec_furl_file) None None 0.01 3
               (fresh_connector never_started 0%nat)
      = (Raise (ClientConnectorError msg), st') /\
    attempts (trace st') = [0; 1; 2]%Z /\
    contains (repr_int 3) msg = false.
Proof.
  eexists _, _. split; [vm_compute; reflexivity|].
  split; vm_compute; reflexivity.
Qed.

Lemma client_adapter_witness :
  let st := fresh_connector started 0%nat in
  let st' := @mkSys started Connector (self st) 0%nat
               (trace st ++ [CallRemote 7%nat "get_client_name";
                             ImportItem mec_class]) in
  rr_callRemote 7%nat "get_client_name" (world st) = (Ok mec_class, 0%nat) /\
  remote_calls [CallRemote 7%nat "get_client_name"; ImportItem mec_class]
    = [(7%nat, "get_client_name")] /\
  _wrap_remote_reference 7%nat st =
    match import_item mec_class with
    | Ok cls => (Ok (mkClient cls 7%nat (Some (tub (self st)))), st')
    | Raise e => (Raise e, st')
    end.
Proof.
  intros st st'.
  assert (Hcall :
    rr_callRemote 7%nat "get_client_name" (world st) = (Ok mec_class, 0%nat))
    by reflexivity.
  split; [exact Hcall|].
  exact (client_adapter 7%nat st mec_class 0%nat Hcall).
Defined.

(** A name that cannot be imported: the adapter fails with the error of
    [import_item]. *)
Example unresolvable_name_fails :
  fst (_wrap_remote_reference (H := booting 0 0 "no.such.Client") 7%nat
         (fresh_connector (booting 0 0 "no.such.Client") 0%nat))
  = Raise (ImportError "No module named no.such.Client").
Proof. reflexivity. Qed.

Lemma no_furl_file_name_fails_witness :
  let st := fresh_connector started 0%nat in
  is_valid_furl_or_file "controller.txt" (world st) = false /\
  _find_furl (Some "default") (Some "/home/user/cluster") (Some "controller.txt")
             None None st =
    (Raise (FURLError
              "A furl_file_name must be provided if furl_or_file is not"),
     mkSys (self st) (world st)
           (trace st ++ [IsValidFurlOrFile "controller.txt"])) /\
  lookups [IsValidFurlOrFile "controller.txt"] = [].
Proof.
  intros st.
  assert (Hinvalid : is_valid_furl_or_file "controller.txt" (world st) = false)
    by reflexivity.
  split; [exact Hinvalid|].
  exact (no_furl_file_name_fails (Some "default") (Some "/home/user/cluster")
           (Some "controller.txt") None st Hinvalid).
Defined.

Lemma cluster_lifecycle_witness :
  let c := fresh_cluster started 0%nat in
  let c1 := snd (AsyncCluster_start 2 c) in
  let l := mkLauncher "/home/user" 2 "start" in
  (state (self c) = "before" \/ state (self c) = "after") /\
  AsyncCluster_stop c = (Raise (ClusterStateError "Cluster not running"), c) /\
  state (self c1) = "running" /\
  AsyncCluster_start 2 c1 =
    (Raise (ClusterStateError "Cluster is already running"), c1) /\
  AsyncCluster_start 2 c = (Ok PyNone, c1) /\
  @launcher_observe_stop started l 5%nat = (Ok PyNone, 5%nat) /\
  exists c2,
    AsyncCluster_stop (@mkSys started AsyncCluster (self c1) 5%nat (trace c1)) =
      (@gatherBoth started
         [Ok PyNone; fst (@launcher_stop started l 5%nat)], c2) /\
    state (self c2) = "after".
Proof.
  intros c c1 l.
  assert (Hbefore : state (self c) = "before" \/ state (self c) = "after")
    by (left; reflexivity).
  assert (Hrunning : state (self c1) = "running") by reflexivity.
  assert (Hstart : AsyncCluster_start 2 c = (Ok PyNone, c1)) by reflexivity.
  assert (Hobserved :
    @launcher_observe_stop started l 5%nat = (Ok PyNone, 5%nat))
    by reflexivity.
  split; [exact Hbefore|].
  split; [exact (proj1 (cluster_lifecycle c 2) Hbefore)|].
  split; [exact Hrunning|].
  split; [exact (proj1 (proj2 (cluster_lifecycle c1 2)) Hrunning)|].
  split; [exact Hstart|]. split; [exact Hobserved|].
  exact (proj2 (proj2 (proj2 (cluster_lifecycle c 2))
                  PyNone c1 5%nat PyNone 5%nat Hstart Hobserved)).
Defined.

(** C8, as it was stated, fails in its third part: when the launcher
    never reports the stop, [start] succeeds, [stop] succeeds (the errors
    of the two deferreds are consumed by [gatherBoth]) and the handle is
    still in state 'running'. *)
Lemma successful_stop_leaves_running :
  let c := fresh_cluster unobserved 0%nat in
  let c1 := snd (AsyncCluster_start 2 c) in
  let c2 := snd (AsyncCluster_stop c1) in
  state (self c) = "before" /\
  fst (AsyncCluster_start 2 c) = Ok PyNone /\
  fst (AsyncCluster_stop c1) = Ok PyNone /\
  state (self c2) = "running" /\
  state (self c2) <> "after".
Proof.
  vm_compute. repeat split; discriminate.
Qed.

(** * More properties *)

(** ** The retry loop: how a run ends *)

Section RetryOutcome.
Context `{External}.

Lemma connect_once_ok f st rr st' :
  connect_once f st = (Ok rr, st') ->
  exists g evs,
    find_furl f (world st) = Ok g /\
    furl (self st') = Some g /\
    _remote_refs (self st') !! g = Some rr /\
    trace st' = (trace st ++ evs ++ [LogConnected f])%list /\
    schedule evs = [].
Proof.
  rewrite connect_once_step.
  destruct (find_furl f (world st)) as [g|e]; [|done].
  destruct (_remote_refs (self st) !! g) as [ref|] eqn:Hcache.
  - rewrite (get_reference_hit g _ ref) by exact Hcache.
    intros [= <- <-]. exists g, [FindFurl f]. simpl.
    rewrite <- app_assoc. by repeat split.
  - rewrite get_reference_miss by exact Hcache. simpl.
    destruct (tub_getReference g (world st)) as [[ref|e] w]; [|done].
    intros [= <- <-]. exists g, [FindFurl f; TubGetReference g]. simpl.
    rewrite <- !app_assoc. repeat split; try done. apply lookup_insert_eq.
Qed.

(** A run with a budget: its schedule, and how it ends.  A failed run has
    used the whole budget; a run that connected ends with the success
    message, and the reference is in the cache under the furl it read. *)
Lemma try_to_connect_outcome f m d a st :
  (a < m)%Z ->
  exists new n,
    trace (snd (_try_to_connect f d m a st)) = (trace st ++ new)%list /\
    (1 <= n)%nat /\ (a + Z.of_nat n <= m)%Z /\
    schedule new = backoff d a n /\
    match fst (_try_to_connect f d m a st) with
    | Raise _ => (a + Z.of_nat n = m)%Z
    | Ok rr =>
        (exists before, new = (before ++ [LogConnected f])%list) /\
        exists g, furl (self (snd (_try_to_connect f d m a st))) = Some g /\
                  _remote_refs (self (snd (_try_to_connect f d m a st))) !! g
                    = Some rr
    end.
Proof.
  apply (_try_to_connect_cases f m (fun d a st out =>
    (a < m)%Z ->
    exists new n,
      trace (snd out) = (trace st ++ new)%list /\
      (1 <= n)%nat /\ (a + Z.of_nat n <= m)%Z /\
      schedule new = backoff d a n /\
      match fst out with
      | Raise _ => (a + Z.of_nat n = m)%Z
      | Ok rr =>
          (exists before, new = (before ++ [LogConnected f])%list) /\
          exists g, furl (self (snd out)) = Some g /\
                    _remote_refs (self (snd out)) !! g = Some rr
      end)); clear d a st.
  - intros d a st Hge Hlt. lia.
  - intros d a st rr st' Hlt Hrun _.
    destruct (connect_once_ok _ _ _ _ Hrun)
      as (g & evs & _ & Hfurl & Hcache & Htr & Hsch).
    exists (LogConnecting a :: evs ++ [LogConnected f])%list, 1%nat.
    simpl in *. rewrite Htr, <- app_assoc. repeat split; [lia..| | |].
    + by rewrite schedule_app, Hsch.
    + by exists (LogConnecting a :: evs).
    + by exists g.
  - intros d a st e st' Hlt Hlast Hrun _.
    destruct (connect_once_schedule _ _ _ _ Hrun) as (evs & Htr & Hsch).
    exists (LogConnecting a :: evs), 1%nat. simpl in *.
    rewrite Htr, <- app_assoc, Hsch. repeat split; lia.
  - intros d a st e st' out Hlt Hne Hrun _ IH _.
    destruct IH as (new & n & Htr & Hn & Hle & Hsch & Hend); [lia|].
    destruct (connect_once_schedule _ _ _ _ Hrun) as (evs & Htr' & Hsch').
    exists (LogConnecting a :: evs ++ Sleep d :: new)%list, (S n).
    simpl in *. rewrite Htr, Htr', <- !app_assoc. simpl.
    repeat split; [lia..| |].
    + rewrite schedule_app, Hsch'. simpl. fold (schedule new).
      rewrite Hsch. by apply backoff_shift.
    + destruct (fst out) as [rr|e1]; [|lia].
      destruct Hend as [[before ->] Hcached]. split; [|exact Hcached].
      exists (LogConnecting a :: evs ++ Sleep d :: before)%list.
      simpl. by rewrite <- app_assoc.
Qed.

(** X1: a retry loop that fails has used its whole budget: started at
    attempt [a] below [max_tries], it has made the attempts a, a+1, ...,
    max_tries - 1, every one of them, and slept between them; and its
    failure is the one the last of these attempts raised, never the
    max_tries-exceeded error of the loop itself. *)
Theorem failed_loop_used_its_budget f d (max_tries : Z) a st e st' :
  (a < max_tries)%Z ->
  _try_to_connect f d max_tries a st = (Raise e, st') ->
  (exists new,
     trace st' = (trace st ++ new)%list /\
     attempts new =
       (fun k => (a + Z.of_nat k)%Z) <$> seq 0 (Z.to_nat (max_tries - a)) /\
     length (sleeps new) = (Z.to_nat (max_tries - a) - 1)%nat) /\
  exists st_last,
    connect_once f (logged (LogConnecting (max_tries - 1)) st_last)
      = (Raise e, st').
Proof.
  intros Hlt Hrun.
  split; [|exact (failure_is_of_last_attempt f d max_tries a st e st' Hlt Hrun)].
  destruct (try_to_connect_outcome f max_tries d a st Hlt)
    as (new & n & Htr & Hn & Hle & Hsch & Hend).
  rewrite Hrun in Htr, Hend. simpl in *.
  assert (n = Z.to_nat (max_tries - a)) as -> by lia.
  exists new. split; [exact Htr|]. split.
  - rewrite attempts_schedule, Hsch.
    by rewrite backoff_attempts.
  - by rewrite sleeps_schedule, Hsch, backoff_sleeps, length_fmap, length_seq.
Qed.

Lemma try_to_connect_ok_cached f d m a st rr st' :
  _try_to_connect f d m a st = (Ok rr, st') ->
  exists g, furl (self st') = Some g /\
            _remote_refs (self st') !! g = Some rr.
Proof.
  intros Hrun.
  assert (Hlt : (a < m)%Z).
  { rewrite _try_to_connect_step in Hrun. by destruct (Z_lt_dec a m). }
  destruct (try_to_connect_outcome f m d a st Hlt)
    as (new & n & _ & _ & _ & _ & Hend).
  rewrite Hrun in Hend. simpl in Hend. by destruct Hend as [_ Hcached].
Qed.

(** X2: when the loop connects it returns at once: the last thing it did
    is log the success, it did not sleep afterwards, and the reference it
    returns is the one now cached under the furl kept in [self.furl]. *)
Theorem connected_reference_is_cached f d (max_tries : Z) a st rr st' :
  _try_to_connect f d max_tries a st = (Ok rr, st') ->
  (exists new before,
     trace st' = (trace st ++ new)%list /\
     new = (before ++ [LogConnected f])%list /\
     length (sleeps new) = (length (attempts new) - 1)%nat) /\
  exists g, furl (self st') = Some g /\
            _remote_refs (self st') !! g = Some rr.
Proof.
  intros Hrun.
  assert (Hlt : (a < max_tries)%Z).
  { rewrite _try_to_connect_step in Hrun.
    by destruct (Z_lt_dec a max_tries). }
  destruct (try_to_connect_outcome f max_tries d a st Hlt)
    as (new & n & Htr & Hn & Hle & Hsch & Hend).
  rewrite Hrun in Htr, Hend. simpl in *.
  destruct Hend as [[before Hlast] Hcached]. split; [|exact Hcached].
  exists new, before. split; [exact Htr|]. split; [exact Hlast|].
  rewrite sleeps_schedule, Hsch, backoff_sleeps, length_fmap, length_seq.
  rewrite attempts_schedule, Hsch.
  rewrite backoff_attempts by exact Hn.
  by rewrite length_fmap, length_seq.
Qed.

End RetryOutcome.

(** ** [_find_furl] and [get_client]: more about what they do *)

Section GetClientMore.
Context `{External}.

Ltac run_monad :=
  unfold bind, catch, try_except_else, emit, get_self, set_self, ask,
    ask_result, foreign, lift, ret, raise in *; simpl in *.

Ltac trace_suffix :=
  eexists; split;
  [ first [ symmetry; apply app_nil_r
          | rewrite <- ?app_assoc; reflexivity ]
  | try reflexivity ].

Lemma remote_calls_app tr1 tr2 :
  remote_calls (tr1 ++ tr2) = (remote_calls tr1 ++ remote_calls tr2)%list.
Proof. apply omap_app. Qed.

Lemma sleeps_app tr1 tr2 :
  sleeps (tr1 ++ tr2) = (sleeps tr1 ++ sleeps tr2)%list.
Proof. apply omap_app. Qed.

(** Resolving the descriptor source makes no attempt, sleeps for nothing,
    connects to nothing and calls nothing remote. *)
Lemma _find_furl_quiet p c fo fn i st r st' :
  _find_furl p c fo fn i st = (r, st') ->
  self st' = self st /\ world st' = world st /\
  exists new, trace st' = (trace st ++ new)%list /\
              attempts new = [] /\ sleeps new = [] /\ connects new = [] /\
              remote_calls new = [].
Proof.
  unfold _find_furl. run_monad. intros Hrun.
  repeat case_match; simplify_eq/=; (split; [done|]); (split; [done|]);
    trace_suffix; by repeat split.
Qed.

(** The retry loop calls nothing remote and leaves the Tub in place. *)
Lemma try_to_connect_no_remote_call f d m a st :
  tub (self (snd (_try_to_connect f d m a st))) = tub (self st) /\
  exists new,
    trace (snd (_try_to_connect f d m a st)) = (trace st ++ new)%list /\
    remote_calls new = [].
Proof.
  apply (_try_to_connect_cases f m (fun d a st out =>
    tub (self (snd out)) = tub (self st) /\
    exists new, trace (snd out) = (trace st ++ new)%list /\
                remote_calls new = [])); clear d a st.
  - intros d a st _. split; [done|]. exists []. by rewrite app_nil_r.
  - intros d a st rr st' _ Hrun.
    destruct (connect_once_shape _ _ _ _ Hrun)
      as (tail & Htr & Htail & _ & Htub).
    split; [exact Htub|]. exists (LogConnecting a :: FindFurl f :: tail).
    simpl in *. rewrite Htr, <- app_assoc. split; [done|].
    by destruct Htail as [->|[->|(g & _ & _ & [->| ->])]].
  - intros d a st e st' _ _ Hrun.
    destruct (connect_once_shape _ _ _ _ Hrun)
      as (tail & Htr & Htail & _ & Htub).
    split; [exact Htub|]. exists (LogConnecting a :: FindFurl f :: tail).
    simpl in *. rewrite Htr, <- app_assoc. split; [done|].
    by destruct Htail as [->|[->|(g & _ & _ & [->| ->])]].
  - intros d a st e st' out _ _ Hrun _ (Htub' & new & Htr' & Hnew).
    destruct (connect_once_shape _ _ _ _ Hrun)
      as (tail & Htr & Htail & _ & Htub).
    split; [simpl in *; congruence|].
    exists (LogConnecting a :: FindFurl f :: tail ++ Sleep d :: new)%list.
    simpl in *. rewrite Htr', Htr, <- !app_assoc. split; [done|].
    fold (remote_calls (tail ++ Sleep d :: new)).
    rewrite remote_calls_app. simpl. fold (remote_calls new). rewrite Hnew.
    by destruct Htail as [->|[->|(g & _ & _ & [->| ->])]].
Qed.

(** X4: when the descriptor source cannot be resolved, [get_client] fails
    with the very exception [_find_furl] raised, not with the consolidated
    ClientConnectorError, and it has not tried to connect: no attempt, no
    sleep, no connect, no remote call. *)
Theorem unresolved_source_fails_fast p c fo fn i d m st e st1 :
  _find_furl p c fo fn i st = (Raise e, st1) ->
  get_client p c fo fn i d m st = (Raise e, st1) /\
  world st1 = world st /\ self st1 = self st /\
  exists new, trace st1 = (trace st ++ new)%list /\
              attempts new = [] /\ sleeps new = [] /\ connects new = [] /\
              remote_calls new = [].
Proof.
  intros Hfind. split.
  - unfold get_client, try_except_else, raise. rewrite Hfind. by destruct e.
  - destruct (_find_furl_quiet _ _ _ _ _ _ _ _ Hfind) as (Hself & Hworld & Hnew).
    by repeat split.
Qed.

(** X5: the client [get_client] returns is built from the reference now
    cached under the furl kept in [self.furl], it carries the connector's
    Tub, its class is one [import_item] resolved, and the whole call made
    exactly one remote call, [get_client_name] on that reference. *)
Theorem returned_client_wraps_cached_reference
        p c fo fn i d m st (cl : Client) st' :
  get_client p c fo fn i d m st = (Ok cl, st') ->
  client_tub cl = Some (tub (self st)) /\
  (exists g, furl (self st') = Some g /\
             _remote_refs (self st') !! g = Some (client_rr cl)) /\
  (exists name, import_item name = Ok (client_interface cl)) /\
  exists new, trace st' = (trace st ++ new)%list /\
              remote_calls new = [(client_rr cl, "get_client_name")].
Proof.
  unfold get_client, try_except_else, catch, _handle_error, raise.
  destruct (_find_furl p c fo fn i st) as [[furl_file|e] st1] eqn:Hfind;
    [|by destruct e].
  destruct (_find_furl_quiet _ _ _ _ _ _ _ _ Hfind)
    as (Hself & _ & new1 & Htr1 & _ & _ & _ & Hrc1).
  unfold bind.
  destruct (_try_to_connect furl_file d m 0 st1) as [[rr|e] st2] eqn:Htry;
    [|done].
  destruct (try_to_connect_ok_cached _ _ _ _ _ _ _ Htry)
    as (g & Hfurl & Hcache).
  destruct (try_to_connect_no_remote_call furl_file d m 0 st1)
    as (Htub & new2 & Htr2 & Hrc2).
  rewrite Htry in Htub, Htr2. simpl in Htub, Htr2.
  unfold _wrap_remote_reference, adapt, bind, emit, foreign, lift, get_self,
    ret, set_client_tub. simpl.
  destruct (rr_callRemote rr "get_client_name" (world st2)) as [[name|e] w];
    [|done]. simpl.
  destruct (import_item name) as [cls|e] eqn:Himport; [|done].
  intros [= <- <-]. simpl. split; [congruence|].
  split; [by exists g|]. split; [by exists name|].
  exists (new1 ++ new2 ++ [CallRemote rr "get_client_name"; ImportItem name])%list.
  split.
  - rewrite Htr2, Htr1, <- !app_assoc. reflexivity.
  - rewrite !remote_calls_app, Hrc1, Hrc2. reflexivity.
Qed.

(** X6: with a valid explicit [furl_or_file], the role of the wrapper does
    not matter: [get_task_client] and [get_multiengine_client] do the same
    thing, whatever profile, cluster directory and ipython_dir each is
    given, since the role's file name is never used. *)
Theorem explicit_furl_ignores_role p c i p' c' i' f d m st :
  is_valid_furl_or_file f (world st) = true ->
  get_task_client p c (Some f) i d m st
  = get_multiengine_client p' c' (Some f) i' d m st.
Proof.
  intros Hvalid.
  unfold get_task_client, get_multiengine_client, get_client, try_except_else.
  assert (Hfind : forall p c n i,
    _find_furl p c (Some f) n i st = (Ok f, logged (IsValidFurlOrFile f) st)).
  { intros. unfold _find_furl, bind, emit, ask, ret. simpl. by rewrite Hvalid. }
  by rewrite !Hfind.
Qed.

(** X7: [get_client] never connects again to a furl that is in the cache,
    and leaves its entry as it is, whatever it is asked for. *)
Theorem get_client_reuses_cache p c fo fn i d m st X ref :
  _remote_refs (self st) !! X = Some ref ->
  _remote_refs (self (snd (get_client p c fo fn i d m st))) !! X = Some ref /\
  exists new,
    trace (snd (get_client p c fo fn i d m st)) = (trace st ++ new)%list /\
    X ∉ connects new.
Proof.
  intros Hcached.
  destruct (get_client_grows p c fo fn i d m st) as (Hsub & _ & new & Htr & Hnew).
  split; [exact (lookup_weaken _ _ X ref Hcached Hsub)|].
  exists new. split; [exact Htr|]. intros HX. apply Hnew in HX. congruence.
Qed.

(** X19: a failure of the adapter, be it the remote call or the import
    of the class the controller named, reaches the caller of [get_client]
    as the same ClientConnectorError as a failure to connect: the message
    about the controller not being started or a firewall, for the FURL
    file. *)
Theorem adapter_failure_is_reported_as_connection_failure
        p c fo fn i d m st furl_file st1 rr st2 e st3 :
  _find_furl p c fo fn i st = (Ok furl_file, st1) ->
  _try_to_connect furl_file d m 0 st1 = (Ok rr, st2) ->
  _wrap_remote_reference rr st2 = (Raise e, st3) ->
  get_client p c fo fn i d m st =
    (Raise (ClientConnectorError (could_not_connect furl_file)), st3).
Proof.
  intros Hfind Htry Hwrap.
  unfold get_client, try_except_else, catch, bind, _handle_error, raise.
  by rewrite Hfind, Htry, Hwrap.
Qed.

End GetClientMore.

(** ** [_find_furl]: which source it settles on *)

Section FindFurlMore.
Context `{External}.

(** X8: a descriptor source [_find_furl] returns has been checked: it is
    either the explicit [furl_or_file], found valid, or the file
    [furl_file_name] in the security directory of the cluster directory
    (when [cluster_dir] is given) or else of the profile's directory, and
    [validate_furl_or_file] accepted it. *)
Theorem found_source_is_validated p c fo fn i st f st' :
  _find_furl p c fo fn i st = (Ok f, st') ->
  (fo = Some f /\ is_valid_furl_or_file f (world st) = true) \/
  (exists name o,
     fn = Some name /\ f = os_path_join (security_dir o) name /\
     validate_furl_or_file f (world st) = Ok tt /\
     match c with
     | Some cd => find_cluster_dir cd (world st) = Ok o
     | None =>
         exists prof,
           p = Some prof /\
           find_cluster_dir_by_profile
             (default (get_ipython_dir (world st)) i) prof (world st) = Ok o
     end).
Proof.
  unfold _find_furl, bind, emit, ask, ask_result, ret, raise. simpl.
  intros Hrun.
  repeat case_match; simplify_eq/=;
    first [ by left
          | right; eexists _, _; repeat split; eauto;
            by match goal with u : unit |- _ => destruct u end ].
Qed.

(** X9: with a [cluster_dir], the profile and [ipython_dir] play no part,
    and there is no falling back on them: when the cluster directory is
    not found, or the FURL file in it is not accepted, that failure is the
    outcome. *)
Theorem cluster_dir_shadows_profile p p' i i' cd fo name st :
  match fo with
  | Some f => is_valid_furl_or_file f (world st) = false
  | None => True
  end ->
  _find_furl p (Some cd) fo (Some name) i st
    = _find_furl p' (Some cd) fo (Some name) i' st /\
  fst (_find_furl p (Some cd) fo (Some name) i st) =
    match find_cluster_dir cd (world st) with
    | Raise e => Raise e
    | Ok o =>
        match validate_furl_or_file (os_path_join (security_dir o) name)
                                    (world st) with
        | Raise e => Raise e
        | Ok _ => Ok (os_path_join (security_dir o) name)
        end
    end.
Proof.
  intros Hfo. unfold _find_furl, bind, emit, ask, ask_result, ret, raise.
  destruct fo as [f|]; simpl; rewrite ?Hfo; (split; [reflexivity|]);
    (destruct (find_cluster_dir cd (world st)) as [o|e] eqn:Hdir; simpl;
     rewrite ?Hdir; simpl; [|reflexivity]);
    by destruct (validate_furl_or_file (os_path_join (security_dir o) name)
                                       (world st)).
Qed.

End FindFurlMore.

(** ** The cluster handle: starting again, stops that are not observed *)

Section LifecycleMore.
Context `{External}.

Lemma start_outcome (c : Sys AsyncCluster) n :
  state (self c) <> "running" ->
  AsyncCluster_start n c =
  let l := mkLauncher (os_getcwd (world c)) n "start" in
  match launcher_start l (world c) with
  | (Ok r, w) =>
      (Ok PyNone, mkSys (set_state "running" (set_launcher l (self c))) w
                        (trace c ++ [LauncherStart l]))
  | (Raise e, w) =>
      (Raise e, mkSys (set_launcher l (self c)) w
                      (trace c ++ [LauncherStart l]))
  end.
Proof.
  intros Hstate.
  unfold AsyncCluster_start, _handle_start, bind, get_self, set_self, ask,
    emit, foreign, ret, raise. simpl.
  destruct (String.eqb_spec (state (self c)) "running"); [done|]. simpl.
  by destruct (launcher_start _ (world c)) as [[r|e] w].
Qed.

Lemma stop_outcome (c : Sys AsyncCluster) l :
  state (self c) = "running" -> launcher (self c) = Some l ->
  AsyncCluster_stop c =
  match launcher_observe_stop l (world c) with
  | (Ok r, w1) =>
      (gatherBoth [Ok PyNone; fst (launcher_stop l w1)],
       mkSys (set_state "after" (self c)) (snd (launcher_stop l w1))
             (trace c ++ [LauncherObserveStop l; LauncherStop l]))
  | (Raise e, w1) =>
      (gatherBoth [Raise e; fst (launcher_stop l w1)],
       mkSys (self c) (snd (launcher_stop l w1))
             (trace c ++ [LauncherObserveStop l; LauncherStop l]))
  end.
Proof.
  intros Hstate Hlauncher.
  unfold AsyncCluster_stop, _handle_stop, fired, bind, get_self, set_self,
    emit, foreign, lift, ret. simpl.
  rewrite Hstate, Hlauncher. simpl.
  destruct (launcher_observe_stop l (world c)) as [[r|e] w1]; simpl;
    destruct (launcher_stop l w1) as [r2 w2]; simpl;
    by rewrite <- app_assoc.
Qed.

(** X10: a start that the launcher fails leaves the state of the handle
    as it was, so the handle is not running and can be started again; the
    failure is the launcher's, and the launcher object is the new one. *)
Theorem failed_start_keeps_state (c : Sys AsyncCluster) n e w :
  state (self c) <> "running" ->
  launcher_start (mkLauncher (os_getcwd (world c)) n "start") (world c)
    = (Raise e, w) ->
  fst (AsyncCluster_start n c) = Raise e /\
  state (self (snd (AsyncCluster_start n c))) = state (self c) /\
  AsyncCluster_running (self (snd (AsyncCluster_start n c))) = false /\
  launcher (self (snd (AsyncCluster_start n c)))
    = Some (mkLauncher (os_getcwd (world c)) n "start").
Proof.
  intros Hstate Hfail. rewrite start_outcome by exact Hstate. simpl.
  rewrite Hfail. simpl. repeat split.
  unfold AsyncCluster_running. simpl.
  by destruct (String.eqb_spec (state (self c)) "running").
Qed.

(** X11: a stop on a running cluster asks the launcher for the
    stop-observation and then for the stop, in that order and both, however
    the first turns out.  The state becomes 'after' exactly when the
    observation completes; when it fails the handle stays 'running'. *)
Theorem stop_follows_the_observation (c : Sys AsyncCluster) l :
  state (self c) = "running" -> launcher (self c) = Some l ->
  trace (snd (AsyncCluster_stop c))
    = (trace c ++ [LauncherObserveStop l; LauncherStop l])%list /\
  state (self (snd (AsyncCluster_stop c))) =
    match fst (launcher_observe_stop l (world c)) with
    | Ok _ => "after"
    | Raise _ => "running"
    end /\
  fst (AsyncCluster_stop c) =
    gatherBoth
      [match fst (launcher_observe_stop l (world c)) with
       | Ok _ => Ok PyNone
       | Raise e => Raise e
       end;
       fst (launcher_stop l (snd (launcher_observe_stop l (world c))))].
Proof.
  intros Hstate Hlauncher. rewrite (stop_outcome c l Hstate Hlauncher).
  by destruct (launcher_observe_stop l (world c)) as [[r|e] w1].
Qed.

(** X12: a cluster that was started and stopped can be started again: the
    second start is accepted in state 'after', makes a new launcher and,
    when that launcher starts, the handle is 'running' again. *)
Theorem stopped_cluster_restarts (c : Sys AsyncCluster) n v c1 w v1 w1 n' w' r w2 :
  AsyncCluster_start n c = (Ok v, c1) ->
  launcher_observe_stop (mkLauncher (os_getcwd (world c)) n "start") w
    = (Ok v1, w1) ->
  launcher_start (mkLauncher (os_getcwd w') n' "start") w' = (Ok r, w2) ->
  let c2 := snd (AsyncCluster_stop (mkSys (self c1) w (trace c1))) in
  let c3 := snd (AsyncCluster_start n' (mkSys (self c2) w' (trace c2))) in
  state (self c2) = "after" /\
  AsyncCluster_running (self c2) = false /\
  fst (AsyncCluster_start n' (mkSys (self c2) w' (trace c2))) = Ok PyNone /\
  state (self c3) = "running" /\
  launcher (self c3) = Some (mkLauncher (os_getcwd w') n' "start").
Proof.
  intros Hstart Hobserved Hagain.
  destruct (start_succeeded _ _ _ _ Hstart) as [Hrunning Hlauncher].
  intros c2.
  assert (Hc2 : state (self c2) = "after").
  { unfold c2.
    rewrite (stop_outcome (mkSys (self c1) w (trace c1)) _ Hrunning Hlauncher).
    simpl.
    by rewrite Hobserved. }
  intros c3. unfold c3.
  rewrite start_outcome by (simpl; by rewrite Hc2). simpl.
  rewrite Hagain. simpl. repeat split; try done.
  unfold AsyncCluster_running. by rewrite Hc2.
Qed.

End LifecycleMore.

(** ** The cluster handle: construction, clients and logs *)

Section ClusterMore.
Context `{ExternalFiles}.

(** X13: an AsyncCluster is built only with [auto_create] or with the
    profile 'default', and then its cluster directory is the one
    [create_cluster_dir_by_profile] made, whatever the look-ups by
    [cluster_dir] and by profile found; the new handle is in state
    'before', not running, without launcher or connector. *)
Theorem cluster_dir_is_the_created_one
        profile cluster_dir ipython_dir auto_create a_stop st c st' :
  AsyncCluster_init profile cluster_dir ipython_dir auto_create a_stop st
    = (Ok c, st') ->
  (auto_create = true \/ profile = Some "default") /\
  (exists o,
     create_cluster_dir_by_profile
       (default (get_ipython_dir (world st)) ipython_dir) profile (world st)
       = (Ok o, world st') /\
     cluster_dir_obj c = Some o) /\
  state c = "before" /\ AsyncCluster_running c = false /\
  launcher c = None /\ client_connector c = None /\ auto_stop c = a_stop.
Proof.
  unfold AsyncCluster_init, _setup_cluster_dir, bind, catch, emit, ask,
    ask_result, foreign, get_self, set_self, ret, raise. simpl.
  intros Hrun.
  assert (Hgate : auto_create = true \/ profile = Some "default").
  { destruct auto_create; [by left|right].
    destruct profile as [prof|].
    - destruct (String.eqb_spec prof "default") as [->|Hne]; [done|].
      repeat case_match; simplify_eq/=.
    - repeat case_match; simplify_eq/=. }
  split; [exact Hgate|].
  repeat case_match; simplify_eq/=; (split; [by eexists|]); done.
Qed.

(** X14: without [auto_create] and with a profile other than 'default',
    building the handle fails with "Cluster dir not found." also when the
    cluster directory was found, by [cluster_dir] or by profile: the
    look-ups have no say (given that they raise nothing but
    ClusterDirError). *)
Theorem found_cluster_dir_is_not_enough
        profile cluster_dir ipython_dir a_stop st :
  profile <> Some "default" ->
  (forall cd e, cluster_dir = Some cd ->
     find_cluster_dir cd (world st) = Raise e ->
     exists msg, e = ClusterDirError msg) ->
  (forall prof e, profile = Some prof ->
     find_cluster_dir_by_profile
       (default (get_ipython_dir (world st)) ipython_dir) prof (world st)
       = Raise e ->
     exists msg, e = ClusterDirError msg) ->
  fst (AsyncCluster_init profile cluster_dir ipython_dir false a_stop st)
    = Raise (ClusterDirError "Cluster dir not found.").
Proof.
  intros Hprofile Hdir Hprof.
  unfold AsyncCluster_init, _setup_cluster_dir, bind, catch, emit, ask,
    ask_result, foreign, get_self, set_self, ret, raise. simpl.
  assert (Hgate : match profile with
                  | Some p => String.eqb p "default"
                  | None => false
                  end = false).
  { destruct profile as [prof|]; [|done].
    destruct (String.eqb_spec prof "default"); [congruence|done]. }
  destruct ipython_dir as [ipd|]; destruct cluster_dir as [cd|];
    destruct profile as [prof|]; simpl in *; rewrite ?Hgate;
    repeat match goal with
           | |- context [find_cluster_dir ?d ?w] =>
               let E := fresh "E" in
               destruct (find_cluster_dir d w) as [?|?] eqn:E; simpl;
               [|destruct (Hdir _ _ eq_refl E) as [? ->]; simpl]
           | |- context [find_cluster_dir_by_profile ?i ?p ?w] =>
               let E := fresh "E" in
               destruct (find_cluster_dir_by_profile i p w) as [?|?] eqn:E;
               simpl;
               [|destruct (Hprof _ _ eq_refl E) as [? ->]; simpl]
           end; rewrite ?Hgate; reflexivity.
Qed.

(** What a method of the connector does to the cluster that holds it. *)
Lemma on_connector_grows {A} (m : M Connector A) st cc :
  client_connector (self st) = Some cc ->
  (forall s, grows s (snd (m s))) ->
  exists cc',
    self (snd (on_connector m st)) = set_client_connector cc' (self st) /\
    tub cc' = tub cc /\ _remote_refs cc ⊆ _remote_refs cc' /\
    exists new,
      trace (snd (on_connector m st)) = (trace st ++ new)%list /\
      forall X, X ∈ connects new -> _remote_refs cc !! X = None.
Proof.
  intros Hcc Hm. unfold on_connector. rewrite Hcc.
  specialize (Hm (mkSys cc (world st) (trace st))).
  destruct (m (mkSys cc (world st) (trace st))) as [r st'].
  destruct Hm as (Hsub & Htub & new & Htr & Hnew). simpl in *.
  exists (self st'). repeat split; try done. by exists new.
Qed.

Lemma cluster_client_keeps_connector (m : ClusterDirObj -> M Connector Client) st :
  (forall d s, grows s (snd (m d s))) ->
  let run :=
    (ensure_connector ;;;
     s <- get_self ;;
     match cluster_dir_obj s with
     | None => raise no_cluster_dir_obj
     | Some d => on_connector (m d)
     end) in
  state (self (snd (run st))) = state (self st) /\
  launcher (self (snd (run st))) = launcher (self st) /\
  cluster_dir_obj (self (snd (run st))) = cluster_dir_obj (self st) /\
  exists cc',
    client_connector (self (snd (run st))) = Some cc' /\
    forall cc, client_connector (self st) = Some cc ->
      tub cc' = tub cc /\ _remote_refs cc ⊆ _remote_refs cc' /\
      exists new,
        trace (snd (run st)) = (trace st ++ new)%list /\
        forall X, X ∈ connects new -> _remote_refs cc !! X = None.
Proof.
  intros Hm run. unfold run, ensure_connector, bind, get_self, set_self,
    foreign, ret, raise. simpl.
  destruct (client_connector (self st)) as [cc|] eqn:Hcc; simpl.
  - destruct (cluster_dir_obj (self st)) as [d|] eqn:Hdir; simpl.
    + destruct (on_connector_grows (m d) st cc Hcc (Hm d))
        as (cc' & Hself & Htub & Hsub & Hnew).
      rewrite Hself. simpl. repeat split; try done.
      exists cc'. split; [done|]. by intros ? [= <-].
    + repeat split; try done. exists cc. split; [done|].
      intros ? [= <-]. repeat split; try done.
      exists []. split; [by rewrite app_nil_r|]. intros X HX. inversion HX.
  - destruct (Tub_new (world st)) as [t w] eqn:Htub. simpl.
    destruct (cluster_dir_obj (self st)) as [d|] eqn:Hdir; simpl.
    + set (st1 := mkSys (set_client_connector (new_connector t) (self st)) w
                        (trace st)).
      destruct (on_connector_grows (m d) st1 (new_connector t) eq_refl (Hm d))
        as (cc' & Hself & _).
      fold st1. rewrite Hself. simpl. repeat split; try done.
      exists cc'. split; [done|]. intros ? [=].
    + repeat split; try done. eexists. split; [done|]. intros ? [=].
Qed.

(** X15: asking a cluster handle for a client, of either kind, leaves its
    life cycle alone (state, launcher and cluster directory are as before)
    and leaves it with a connector; a handle that had one keeps it: the
    same Tub, a cache that has only grown, and no connect made for a furl
    that was already cached. *)
Theorem cluster_keeps_one_connector delay max_tries st :
  let kept (run : M AsyncCluster Client) :=
    state (self (snd (run st))) = state (self st) /\
    launcher (self (snd (run st))) = launcher (self st) /\
    cluster_dir_obj (self (snd (run st))) = cluster_dir_obj (self st) /\
    exists cc',
      client_connector (self (snd (run st))) = Some cc' /\
      forall cc, client_connector (self st) = Some cc ->
        tub cc' = tub cc /\ _remote_refs cc ⊆ _remote_refs cc' /\
        exists new,
          trace (snd (run st)) = (trace st ++ new)%list /\
          forall X, X ∈ connects new -> _remote_refs cc !! X = None in
  kept (AsyncCluster_get_multiengine_client delay max_tries) /\
  kept (AsyncCluster_get_task_client delay max_tries).
Proof.
  intros kept. split.
  - apply (cluster_client_keeps_connector
             (fun d => get_multiengine_client (Some "default")
                         (Some (location d)) None None delay max_tries)).
    intros d s. apply get_client_grows.
  - apply (cluster_client_keeps_connector
             (fun d => get_task_client (Some "default")
                         (Some (location d)) None None delay max_tries)).
    intros d s. apply get_client_grows.
Qed.

(** ** Logs *)

Lemma read_logs_spec log_dir name listing acc st logs st' :
  read_logs log_dir name listing acc st = (Ok logs, st') ->
  st' = st /\
  forall k v,
    logs !! k = Some v <->
    (k ∈ listing /\
     startswith k (name +:+ "-") && endswith k ".log" = true /\
     read_file (os_path_join log_dir k) (world st) = Ok v) \/
    (~ (k ∈ listing /\
        startswith k (name +:+ "-") && endswith k ".log" = true) /\
     acc !! k = Some v).
Proof.
  revert acc. induction listing as [|log listing IH]; intros acc; simpl.
  - unfold ret. intros [= <- <-]. split; [done|]. intros k v. split.
    + intros Hk. right. split; [|done]. intros [Hin _]. inversion Hin.
    + intros [(Hin & _)|[_ Hk]]; [inversion Hin|done].
  - destruct (startswith log (name +:+ "-") && endswith log ".log") eqn:Hm.
    + unfold bind, ask_result.
      destruct (read_file (os_path_join log_dir log) (world st))
        as [content|e] eqn:Hread; [|done].
      intros Hrun. destruct (IH _ Hrun) as [-> Hspec]. split; [done|].
      intros k v. rewrite Hspec. clear Hspec Hrun IH.
      destruct (decide (k = log)) as [->|Hne].
      * rewrite lookup_insert_eq. split.
        -- intros [(_ & _ & Hv)|[_ [= <-]]]; left;
             (split; [by left|]); split; try done.
        -- intros [(_ & _ & Hv)|[Hno _]].
           ++ destruct (decide (log ∈ listing)) as [Hin|Hnin].
              ** by left.
              ** right. split; [by intros [? _]|]. congruence.
           ++ exfalso. apply Hno. split; [by left|done].
      * rewrite lookup_insert_ne by done. split.
        -- intros [(Hin & Hk & Hv)|[Hno Hk]].
           ++ left. split; [by right|done].
           ++ right. split; [|done]. intros [Hin Hk'].
              apply Hno. split; [|done].
              by apply elem_of_cons in Hin as [?|?].
        -- intros [(Hin & Hk & Hv)|[Hno Hk]].
           ++ left. split; [|done]. by apply elem_of_cons in Hin as [?|?].
           ++ right. split; [|done]. intros [Hin Hk']. apply Hno.
              split; [by right|done].
    + intros Hrun. destruct (IH _ Hrun) as [-> Hspec]. split; [done|].
      intros k v. rewrite Hspec. clear Hspec Hrun IH. split.
      * intros [(Hin & Hk & Hv)|[Hno Hk]].
        -- left. split; [by right|done].
        -- right. split; [|done]. intros [Hin Hk'].
           apply elem_of_cons in Hin as [->|Hin]; [congruence|].
           by apply Hno.
      * intros [(Hin & Hk & Hv)|[Hno Hk]].
        -- left. split; [|done].
           apply elem_of_cons in Hin as [->|Hin]; [congruence|done].
        -- right. split; [|done]. intros [Hin Hk']. apply Hno.
           split; [by right|done].
Qed.

Lemma get_logs_by_name_spec name st logs st' :
  get_logs_by_name name st = (Ok logs, st') ->
  st' = st /\
  exists d listing,
    cluster_dir_obj (self st) = Some d /\
    os_listdir (log_dir d) (world st) = Ok listing /\
    forall k v,
      logs !! k = Some v <->
      k ∈ listing /\
      startswith k (name +:+ "-") && endswith k ".log" = true /\
      read_file (os_path_join (log_dir d) k) (world st) = Ok v.
Proof.
  unfold get_logs_by_name, bind, get_self, ask_result, raise. simpl.
  destruct (cluster_dir_obj (self st)) as [d|]; [|done].
  destruct (os_listdir (log_dir d) (world st)) as [listing|e] eqn:Hlist;
    [|done].
  intros Hrun. destruct (read_logs_spec _ _ _ _ _ _ _ Hrun) as [-> Hspec].
  split; [done|]. exists d, listing. split; [done|]. split; [done|].
  intros k v. rewrite Hspec. split.
  - intros [?|[_ Hk]]; [done|]. by rewrite lookup_empty in Hk.
  - intros ?. by left.
Qed.

(** X16: the dict [get_logs_by_name] returns has exactly the files of the
    log directory whose names start with the name and a dash and end in
    '.log', each with what reading it gave; the call changes nothing. *)
Theorem logs_by_name_are_the_matching_files name st logs st' :
  get_logs_by_name name st = (Ok logs, st') ->
  st' = st /\
  exists d listing,
    cluster_dir_obj (self st) = Some d /\
    os_listdir (log_dir d) (world st) = Ok listing /\
    forall k v,
      logs !! k = Some v <->
      k ∈ listing /\
      startswith k (name +:+ "-") && endswith k ".log" = true /\
      read_file (os_path_join (log_dir d) k) (world st) = Ok v.
Proof. apply get_logs_by_name_spec. Qed.

(** X17: [get_logs] returns the log files of the three kinds of process,
    ipcluster, ipengine and ipcontroller, and nothing else: its dict has
    exactly the files of the log directory that end in '.log' and start
    with one of the three names and a dash, each with its content. *)
Theorem all_logs_are_of_three_kinds st logs st' :
  get_logs st = (Ok logs, st') ->
  st' = st /\
  exists d listing,
    cluster_dir_obj (self st) = Some d /\
    os_listdir (log_dir d) (world st) = Ok listing /\
    forall k v,
      logs !! k = Some v <->
      k ∈ listing /\ endswith k ".log" = true /\
      (startswith k "ipcluster-" = true \/ startswith k "ipengine-" = true \/
       startswith k "ipcontroller-" = true) /\
      read_file (os_path_join (log_dir d) k) (world st) = Ok v.
Proof.
  unfold get_logs, get_ipcluster_logs, get_ipengine_logs,
    get_ipcontroller_logs, dict_update, bind, ret.
  destruct (get_logs_by_name "ipcluster" st) as [[m1|?] st1] eqn:H1; [|done].
  destruct (get_logs_by_name_spec _ _ _ _ H1)
    as (-> & d & listing & Hdir & Hlist & Hm1).
  destruct (get_logs_by_name "ipengine" st) as [[m2|?] st2] eqn:H2; [|done].
  destruct (get_logs_by_name_spec _ _ _ _ H2)
    as (-> & d2 & listing2 & Hdir2 & Hlist2 & Hm2).
  destruct (get_logs_by_name "ipcontroller" st) as [[m3|?] st3] eqn:H3;
    [|done].
  destruct (get_logs_by_name_spec _ _ _ _ H3)
    as (-> & d3 & listing3 & Hdir3 & Hlist3 & Hm3).
  assert (d2 = d) as -> by congruence.
  assert (d3 = d) as -> by congruence.
  assert (listing2 = listing) as -> by congruence.
  assert (listing3 = listing) as -> by congruence.
  change ("ipcluster" +:+ "-") with "ipcluster-" in Hm1.
  change ("ipengine" +:+ "-") with "ipengine-" in Hm2.
  change ("ipcontroller" +:+ "-") with "ipcontroller-" in Hm3.
  intros [= <- <-]. split; [done|]. exists d, listing.
  split; [done|]. split; [done|]. intros k v.
  rewrite !lookup_union_Some_raw, Hm1, Hm2, Hm3. split.
  - intros [(Hin & Hk & Hv)|[_ [(Hin & Hk & Hv)|[_ (Hin & Hk & Hv)]]]];
      apply andb_true_iff in Hk as [Hs He]; repeat split; auto.
  - intros (Hin & He & Hs & Hv).
    destruct (m3 !! k) as [v3|] eqn:Hk3.
    { left. apply Hm3 in Hk3 as (_ & Hk & Hv3). by repeat split. }
    right. split; [done|].
    destruct (m2 !! k) as [v2|] eqn:Hk2.
    { left. apply Hm2 in Hk2 as (_ & Hk & Hv2). by repeat split. }
    right. split; [done|].
    destruct Hs as [Hs|[Hs|Hs]].
    + repeat split; try done. by rewrite Hs, He.
    + assert (m2 !! k = Some v) as Hyes; [|congruence].
      apply Hm2. repeat split; try done. by rewrite Hs, He.
    + assert (m3 !! k = Some v) as Hyes; [|congruence].
      apply Hm3. repeat split; try done. by rewrite Hs, He.
Qed.

Lemma prefix_cons a s b t :
  String.prefix (String a s) (String b t) = true ->
  a = b /\ String.prefix s t = true.
Proof. simpl. by destruct (Ascii.ascii_dec a b). Qed.

(** X18: left without a name, [Cluster.get_logs_by_name] looks for files
    whose names start with 'ipcluter-': it returns no log of ipcluster (no
    file whose name starts with 'ipcluster-'), while the method of
    AsyncCluster, left without a name, returns the ipcluster logs. *)
Theorem default_name_misses_ipcluster_logs st logs st' :
  Cluster_get_logs_by_name None st = (Ok logs, st') ->
  (forall k, startswith k "ipcluster-" = true -> logs !! k = None) /\
  AsyncCluster_get_logs_by_name None st = get_ipcluster_logs st.
Proof.
  intros Hrun. split; [|reflexivity].
  destruct (get_logs_by_name_spec _ _ _ _ Hrun)
    as (_ & d & listing & _ & _ & Hspec).
  intros k Hk. destruct (logs !! k) as [v|] eqn:Hv; [|done]. exfalso.
  apply Hspec in Hv as (_ & Hm & _).
  apply andb_true_iff in Hm as [Hs _].
  change (default "ipcluter" None +:+ "-") with "ipcluter-" in Hs.
  unfold startswith in *.
  repeat (destruct k as [|? k]; [done|];
          apply prefix_cons in Hs as [<- Hs];
          apply prefix_cons in Hk as [? Hk]; try done).
Qed.

End ClusterMore.

(** ** Arguments on their way from the cluster handle to the retry loop *)

Section Arguments.

(** X20: the delay and max_tries given to [Cluster.get_task_client] reach
    [AsyncClientConnector.get_client] under their own names, through the
    keyword call and the two positional calls in between; the cluster
    directory is the handle's location, the file name is that of the task
    controller, and the rest are the defaults. *)
Theorem cluster_client_arguments_arrive (location delay max_tries : PyVal) :
  Cluster_get_task_client_call location delay max_tries =
  Some [("profile", PyStr "default"); ("cluster_dir", location);
        ("furl_or_file", PyNone);
        ("furl_file_name", PyStr "ipcontroller-tc.furl");
        ("ipython_dir", PyNone); ("delay", delay); ("max_tries", max_tries)].
Proof. reflexivity. Qed.

End Arguments.

(** * The further properties on examples *)

Lemma failed_loop_used_its_budget_witness :
  let st := fresh_connector never_started 0%nat in
  let e := FURLError ("Not a valid FURL or FURL file: " +:+ mec_furl_file) in
  let st' := snd (_try_to_connect mec_furl_file 0.2 3 0 st) in
  (0 < 3)%Z /\
  _try_to_connect mec_furl_file 0.2 3 0 st = (Raise e, st') /\
  (exists new,
     trace st' = (trace st ++ new)%list /\
     attempts new =
       (fun k => (0 + Z.of_nat k)%Z) <$> seq 0 (Z.to_nat (3 - 0)) /\
     length (sleeps new) = (Z.to_nat (3 - 0) - 1)%nat) /\
  exists st_last,
    connect_once mec_furl_file (logged (LogConnecting (3 - 1)) st_last)
      = (Raise e, st').
Proof.
  intros st e st'.
  assert (Hlt : (0 < 3)%Z) by lia.
  assert (Hrun : _try_to_connect mec_furl_file 0.2 3 0 st = (Raise e, st'))
    by (vm_compute; reflexivity).
  split; [exact Hlt|]. split; [exact Hrun|].
  exact (failed_loop_used_its_budget mec_furl_file 0.2 3 0 st e st' Hlt Hrun).
Defined.

Lemma connected_reference_is_cached_witness :
  let st := fresh_connector ready_at_third 0%nat in
  let st' := snd (_try_to_connect mec_furl_file 0.01 5 0 st) in
  _try_to_connect mec_furl_file 0.01 5 0 st = (Ok 7%nat, st') /\
  (exists new before,
     trace st' = (trace st ++ new)%list /\
     new = (before ++ [LogConnected mec_furl_file])%list /\
     length (sleeps new) = (length (attempts new) - 1)%nat) /\
  exists g, furl (self st') = Some g /\
            _remote_refs (self st') !! g = Some 7%nat.
Proof.
  intros st st'.
  assert (Hrun : _try_to_connect mec_furl_file 0.01 5 0 st = (Ok 7%nat, st'))
    by (vm_compute; reflexivity).
  split; [exact Hrun|].
  exact (connected_reference_is_cached mec_furl_file 0.01 5 0 st 7%nat st' Hrun).
Defined.

Lemma unresolved_source_fails_fast_witness :
  let st := fresh_connector started 0%nat in
  let e := FURLError
             "A furl_file_name must be provided if furl_or_file is not" in
  _find_furl (Some "default") None None None None st = (Raise e, st) /\
  get_client (Some "default") None None None None DELAY MAX_TRIES st
    = (Raise e, st) /\
  world st = world st /\ self st = self st /\
  exists new, trace st = (trace st ++ new)%list /\
              attempts new = [] /\ sleeps new = [] /\ connects new = [] /\
              remote_calls new = [].
Proof.
  intros st e.
  assert (Hfind :
    _find_furl (Some "default") None None None None st = (Raise e, st))
    by reflexivity.
  split; [exact Hfind|].
  exact (unresolved_source_fails_fast (Some "default") None None None None
           DELAY MAX_TRIES st e st Hfind).
Defined.

Lemma returned_client_wraps_cached_reference_witness :
  let st := fresh_connector started 0%nat in
  let cl := @mkClient started mec_class 7%nat (Some 1%nat) in
  let st' := snd (get_multiengine_client (Some "default") None None None
                    0.01 3 st) in
  get_client (Some "default") None None (Some "ipcontroller-mec.furl") None
             0.01 3 st = (Ok cl, st') /\
  client_tub cl = Some (tub (self st)) /\
  (exists g, furl (self st') = Some g /\
             _remote_refs (self st') !! g = Some (client_rr cl)) /\
  (exists name, import_item name = Ok (client_interface cl)) /\
  exists new, trace st' = (trace st ++ new)%list /\
              remote_calls new = [(client_rr cl, "get_client_name")].
Proof.
  intros st cl st'.
  assert (Hrun :
    get_client (Some "default") None None (Some "ipcontroller-mec.furl") None
               0.01 3 st = (Ok cl, st')) by (vm_compute; reflexivity).
  split; [exact Hrun|].
  exact (returned_client_wraps_cached_reference (Some "default") None None
           (Some "ipcontroller-mec.furl") None 0.01 3 st cl st' Hrun).
Defined.

Lemma explicit_furl_ignores_role_witness :
  let st := fresh_connector started 0%nat in
  is_valid_furl_or_file mec_furl_file (world st) = true /\
  get_task_client (Some "default") None (Some mec_furl_file) None 0.01 3 st
  = get_multiengine_client None (Some "/home/user/cluster")
      (Some mec_furl_file) (Some "/tmp") 0.01 3 st.
Proof.
  intros st.
  assert (Hvalid : is_valid_furl_or_file mec_furl_file (world st) = true)
    by reflexivity.
  split; [exact Hvalid|].
  exact (explicit_furl_ignores_role (Some "default") None None None
           (Some "/home/user/cluster") (Some "/tmp") mec_furl_file 0.01 3 st
           Hvalid).
Defined.

Lemma get_client_reuses_cache_witness :
  let X := "pb://controller@127.0.0.1:10105/mec" in
  let st := snd (get_reference X (fresh_connector started 0%nat)) in
  let out := get_client (Some "default") None (Some mec_furl_file) None None
                        0.01 3 st in
  _remote_refs (self st) !! X = Some 7%nat /\
  _remote_refs (self (snd out)) !! X = Some 7%nat /\
  exists new, trace (snd out) = (trace st ++ new)%list /\ X ∉ connects new.
Proof.
  intros X st out.
  assert (Hcached : _remote_refs (self st) !! X = Some 7%nat) by reflexivity.
  split; [exact Hcached|].
  exact (get_client_reuses_cache (Some "default") None (Some mec_furl_file)
           None None 0.01 3 st X 7%nat Hcached).
Defined.

Lemma adapter_failure_is_reported_as_connection_failure_witness :
  let st := fresh_connector launcher_down 0%nat in
  let st1 := logged (IsValidFurlOrFile mec_furl_file) st in
  let st2 := snd (_try_to_connect mec_furl_file 0.01 3 0 st1) in
  let e := ForeignError "connection lost" in
  let st3 := snd (_wrap_remote_reference 7%nat st2) in
  _find_furl (Some "default") None (Some mec_furl_file) None None st
    = (Ok mec_furl_file, st1) /\
  _try_to_connect mec_furl_file 0.01 3 0 st1 = (Ok 7%nat, st2) /\
  _wrap_remote_reference 7%nat st2 = (Raise e, st3) /\
  get_client (Some "default") None (Some mec_furl_file) None None 0.01 3 st =
    (Raise (ClientConnectorError (could_not_connect mec_furl_file)), st3).
Proof.
  intros st st1 st2 e st3.
  assert (Hfind :
    _find_furl (Some "default") None (Some mec_furl_file) None None st
      = (Ok mec_furl_file, st1)) by reflexivity.
  assert (Htry : _try_to_connect mec_furl_file 0.01 3 0 st1 = (Ok 7%nat, st2))
    by (vm_compute; reflexivity).
  assert (Hwrap : _wrap_remote_reference 7%nat st2 = (Raise e, st3))
    by (vm_compute; reflexivity).
  split; [exact Hfind|]. split; [exact Htry|]. split; [exact Hwrap|].
  exact (adapter_failure_is_reported_as_connection_failure (Some "default")
           None (Some mec_furl_file) None None 0.01 3 st mec_furl_file st1
           7%nat st2 e st3 Hfind Htry Hwrap).
Defined.

Lemma found_source_is_validated_witness :
  let st := fresh_connector started 0%nat in
  let f := "/home/user/cluster/security/ipcontroller-tc.furl" in
  let st' := snd (_find_furl None (Some "/home/user/cluster") None
                             (Some "ipcontroller-tc.furl") None st) in
  _find_furl None (Some "/home/user/cluster") None
             (Some "ipcontroller-tc.furl") None st = (Ok f, st') /\
  ((None = Some f /\ is_valid_furl_or_file f (world st) = true) \/
   (exists name o,
      Some "ipcontroller-tc.furl" = Some name /\
      f = os_path_join (security_dir o) name /\
      validate_furl_or_file f (world st) = Ok tt /\
      find_cluster_dir "/home/user/cluster" (world st) = Ok o)).
Proof.
  intros st f st'.
  assert (Hrun :
    _find_furl None (Some "/home/user/cluster") None
               (Some "ipcontroller-tc.furl") None st = (Ok f, st'))
    by reflexivity.
  split; [exact Hrun|].
  exact (found_source_is_validated None (Some "/home/user/cluster") None
           (Some "ipcontroller-tc.furl") None st f st' Hrun).
Defined.

Lemma cluster_dir_shadows_profile_witness :
  let st := fresh_connector launcher_down 0%nat in
  let cd := "/home/user/cluster" in
  let name := "ipcontroller-mec.furl" in
  is_valid_furl_or_file "controller.txt" (world st) = false /\
  _find_furl (Some "default") (Some cd) (Some "controller.txt") (Some name)
             None st
    = _find_furl None (Some cd) (Some "controller.txt") (Some name)
                 (Some "/tmp") st /\
  fst (_find_furl (Some "default") (Some cd) (Some "controller.txt")
                  (Some name) None st) =
    match find_cluster_dir cd (world st) with
    | Raise e => Raise e
    | Ok o =>
        match validate_furl_or_file (os_path_join (security_dir o) name)
                                    (world st) with
        | Raise e => Raise e
        | Ok _ => Ok (os_path_join (security_dir o) name)
        end
    end.
Proof.
  intros st cd name.
  assert (Hinvalid : is_valid_furl_or_file "controller.txt" (world st) = false)
    by reflexivity.
  split; [exact Hinvalid|].
  exact (cluster_dir_shadows_profile (Some "default") None None (Some "/tmp")
           cd (Some "controller.txt") name st Hinvalid).
Defined.

Lemma failed_start_keeps_state_witness :
  let c := fresh_cluster launcher_down 0%nat in
  let e := ForeignError "ipcluster did not start" in
  state (self c) <> "running" /\
  @launcher_start launcher_down (mkLauncher (os_getcwd (world c)) 2 "start")
                  (world c) = (Raise e, 0%nat) /\
  fst (AsyncCluster_start 2 c) = Raise e /\
  state (self (snd (AsyncCluster_start 2 c))) = state (self c) /\
  AsyncCluster_running (self (snd (AsyncCluster_start 2 c))) = false /\
  launcher (self (snd (AsyncCluster_start 2 c)))
    = Some (mkLauncher (os_getcwd (world c)) 2 "start").
Proof.
  intros c e.
  assert (Hstate : state (self c) <> "running") by discriminate.
  assert (Hfail :
    @launcher_start launcher_down (mkLauncher (os_getcwd (world c)) 2 "start")
                    (world c) = (Raise e, 0%nat)) by reflexivity.
  split; [exact Hstate|]. split; [exact Hfail|].
  exact (failed_start_keeps_state c 2 e 0%nat Hstate Hfail).
Defined.

Lemma stop_follows_the_observation_witness :
  let l := mkLauncher "/home/user" 2 "start" in
  let c := @mkSys launcher_down AsyncCluster
             (mkCluster None "running" (Some l) None true) 0%nat [] in
  state (self c) = "running" /\ launcher (self c) = Some l /\
  trace (snd (AsyncCluster_stop c))
    = (trace c ++ [LauncherObserveStop l; LauncherStop l])%list /\
  state (self (snd (AsyncCluster_stop c))) =
    match fst (launcher_observe_stop l (world c)) with
    | Ok _ => "after"
    | Raise _ => "running"
    end /\
  fst (AsyncCluster_stop c) =
    @gatherBoth launcher_down
      [match fst (launcher_observe_stop l (world c)) with
       | Ok _ => Ok PyNone
       | Raise e => Raise e
       end;
       fst (launcher_stop l (snd (launcher_observe_stop l (world c))))].
Proof.
  intros l c.
  assert (Hstate : state (self c) = "running") by reflexivity.
  assert (Hlauncher : launcher (self c) = Some l) by reflexivity.
  split; [exact Hstate|]. split; [exact Hlauncher|].
  exact (stop_follows_the_observation c l Hstate Hlauncher).
Defined.

Lemma stopped_cluster_restarts_witness :
  let c := fresh_cluster started 0%nat in
  let c1 := snd (AsyncCluster_start 2 c) in
  let c2 := snd (AsyncCluster_stop
                   (@mkSys started AsyncCluster (self c1) 5%nat (trace c1))) in
  let c3 := snd (AsyncCluster_start 4
                   (@mkSys started AsyncCluster (self c2) 9%nat (trace c2))) in
  AsyncCluster_start 2 c = (Ok PyNone, c1) /\
  @launcher_observe_stop started
     (mkLauncher (os_getcwd (world c)) 2 "start") 5%nat = (Ok PyNone, 5%nat) /\
  @launcher_start started
     (mkLauncher (@os_getcwd started 9%nat) 4 "start") 9%nat
     = (Ok PyNone, 9%nat) /\
  state (self c2) = "after" /\
  AsyncCluster_running (self c2) = false /\
  fst (AsyncCluster_start 4
         (@mkSys started AsyncCluster (self c2) 9%nat (trace c2))) = Ok PyNone /\
  state (self c3) = "running" /\
  launcher (self c3) = Some (mkLauncher (@os_getcwd started 9%nat) 4 "start").
Proof.
  intros c c1 c2 c3.
  assert (Hstart : AsyncCluster_start 2 c = (Ok PyNone, c1)) by reflexivity.
  assert (Hobserved :
    @launcher_observe_stop started
       (mkLauncher (os_getcwd (world c)) 2 "start") 5%nat
    = (Ok PyNone, 5%nat)) by reflexivity.
  assert (Hagain :
    @launcher_start started
       (mkLauncher (@os_getcwd started 9%nat) 4 "start") 9%nat
    = (Ok PyNone, 9%nat)) by reflexivity.
  split; [exact Hstart|]. split; [exact Hobserved|]. split; [exact Hagain|].
  exact (stopped_cluster_restarts c 2 PyNone c1 5%nat PyNone 5%nat 4 9%nat
           PyNone 9%nat Hstart Hobserved Hagain).
Defined.

Lemma cluster_dir_is_the_created_one_witness :
  let st := @mkSys started (option ClusterDirObj) None 0%nat [] in
  let out := @AsyncCluster_init started started_files
               (Some "default") (Some "/home/user/cluster") None false true st
  in
  let c := mkCluster (Some default_dir) "before" None None true in
  out = (Ok c, snd out) /\
  (false = true \/ Some "default" = Some "default") /\
  (exists o,
     @create_cluster_dir_by_profile started started_files
       (default (get_ipython_dir (world st)) None) (Some "default") (world st)
       = (Ok o, world (snd out)) /\
     cluster_dir_obj c = Some o) /\
  state c = "before" /\ AsyncCluster_running c = false /\
  launcher c = None /\ client_connector c = None /\ auto_stop c = true.
Proof.
  intros st out c.
  assert (Hrun : out = (Ok c, snd out)) by reflexivity.
  split; [exact Hrun|].
  exact (cluster_dir_is_the_created_one (Some "default")
           (Some "/home/user/cluster") None false true st c (snd out) Hrun).
Defined.

Lemma found_cluster_dir_is_not_enough_witness :
  let st := @mkSys launcher_down (option ClusterDirObj) None 0%nat [] in
  let profile := Some "mycluster" in
  let cluster_dir := Some "/home/user/cluster" in
  profile <> Some "default" /\
  (forall cd e, cluster_dir = Some cd ->
     find_cluster_dir cd (world st) = Raise e ->
     exists msg, e = ClusterDirError msg) /\
  (forall prof e, profile = Some prof ->
     find_cluster_dir_by_profile
       (default (get_ipython_dir (world st)) None) prof (world st) = Raise e ->
     exists msg, e = ClusterDirError msg) /\
  find_cluster_dir "/home/user/cluster" (world st)
    = Ok (mkClusterDir "/home/user/cluster" "/home/user/cluster/security"
                       "/home/user/cluster/log") /\
  fst (@AsyncCluster_init launcher_down launcher_down_files
         profile cluster_dir None false true st)
    = Raise (ClusterDirError "Cluster dir not found.").
Proof.
  intros st profile cluster_dir.
  assert (Hprofile : profile <> Some "default") by discriminate.
  assert (Hdir : forall cd e, cluster_dir = Some cd ->
     find_cluster_dir cd (world st) = Raise e ->
     exists msg, e = ClusterDirError msg) by (intros cd e _ [=]).
  assert (Hprof : forall prof e, profile = Some prof ->
     find_cluster_dir_by_profile
       (default (get_ipython_dir (world st)) None) prof (world st) = Raise e ->
     exists msg, e = ClusterDirError msg)
    by (intros prof e _ [= <-]; by eexists).
  split; [exact Hprofile|]. split; [exact Hdir|]. split; [exact Hprof|].
  split; [reflexivity|].
  exact (found_cluster_dir_is_not_enough (H0 := launcher_down_files)
           profile cluster_dir None true st Hprofile Hdir Hprof).
Defined.

Lemma logs_by_name_are_the_matching_files_witness :
  let st := cluster_in started default_dir 0%nat in
  let logs := {[ "ipengine-4712.log" :=
                 "log of /home/user/.ipython/cluster_default/log/ipengine-4712.log" ]} in
  @get_logs_by_name started started_files "ipengine" st = (Ok logs, st) /\
  st = st /\
  exists d listing,
    cluster_dir_obj (self st) = Some d /\
    @os_listdir started started_files (log_dir d) (world st) = Ok listing /\
    forall k v,
      logs !! k = Some v <->
      k ∈ listing /\
      startswith k ("ipengine" +:+ "-") && endswith k ".log" = true /\
      @read_file started started_files (os_path_join (log_dir d) k) (world st)
        = Ok v.
Proof.
  intros st logs.
  assert (Hrun :
    @get_logs_by_name started started_files "ipengine" st = (Ok logs, st))
    by (vm_compute; reflexivity).
  split; [exact Hrun|].
  exact (logs_by_name_are_the_matching_files (H0 := started_files)
           "ipengine" st logs st Hrun).
Defined.

Lemma all_logs_are_of_three_kinds_witness :
  let st := cluster_in started default_dir 0%nat in
  let logs := fst (@get_logs started started_files st) in
  let dict := match logs with Ok m => m | Raise _ => ∅ end in
  @get_logs started started_files st = (Ok dict, st) /\
  size dict = 3%nat /\
  st = st /\
  exists d listing,
    cluster_dir_obj (self st) = Some d /\
    @os_listdir started started_files (log_dir d) (world st) = Ok listing /\
    forall k v,
      dict !! k = Some v <->
      k ∈ listing /\ endswith k ".log" = true /\
      (startswith k "ipcluster-" = true \/ startswith k "ipengine-" = true \/
       startswith k "ipcontroller-" = true) /\
      @read_file started started_files (os_path_join (log_dir d) k) (world st)
        = Ok v.
Proof.
  intros st logs dict.
  assert (Hrun : @get_logs started started_files st = (Ok dict, st))
    by (vm_compute; reflexivity).
  split; [exact Hrun|]. split; [by vm_compute|].
  exact (all_logs_are_of_three_kinds (H0 := started_files) st dict st Hrun).
Defined.

Lemma default_name_misses_ipcluster_logs_witness :
  let st := cluster_in started default_dir 0%nat in
  let logs := {[ "ipcluter-notes.log" :=
                 "log of /home/user/.ipython/cluster_default/log/ipcluter-notes.log" ]} in
  @Cluster_get_logs_by_name started started_files None st = (Ok logs, st) /\
  (forall k, startswith k "ipcluster-" = true -> logs !! k = None) /\
  @AsyncCluster_get_logs_by_name started started_files None st
    = @get_ipcluster_logs started started_files st.
Proof.
  intros st logs.
  assert (Hrun :
    @Cluster_get_logs_by_name started started_files None st = (Ok logs, st))
    by (vm_compute; reflexivity).
  split; [exact Hrun|].
  exact (default_name_misses_ipcluster_logs (H0 := started_files)
           st logs st Hrun).
Defined.
